(** * Hand-hygiene observation form: the PDF layout of [server/pdf_generator.py]

    A shallow embedding of [ObservationFormPDF] (header grid, observation
    table, document assembly), of the command-line entry point [main] and
    of the script as the interpreter runs it, followed by the properties of
    the layout that the specification states.

    Coordinates are binary64 floats, as in the Python source: every
    arithmetic expression on a coordinate is written with the operations of
    [PrimFloat], in the order in which the source evaluates it.  The canvas
    of the drawing library is modelled by the sequence of drawing calls it
    receives. *)

From Stdlib Require Import ZArith String Ascii List Floats Uint63 Lia.
From Stdlib Require Import DecimalString.
From stdpp Require Import gmap strings sorting list.

Set Warnings "-inexact-float".
Set Default Proof Using "Type".

(* ===================================================================== *)
(** ** Units and page size (reportlab.lib.units, reportlab.lib.pagesizes) *)
(* ===================================================================== *)

Module Units.
(** The constants of the drawing library, in points. *)
Definition inch : float := 72%float.
Definition cm : float := (inch / 2.54)%float.
Definition mm : float := (cm * 0.1)%float.
Definition A4 : float * float := ((210 * mm)%float, (297 * mm)%float).
End Units.
Import Units.

(** Python converts an [int] operand of a mixed [int]/[float] operation to
    [float]; the integers that occur (loop indices) are small and exact. *)
Definition float_of_nat (n : nat) : float :=
  PrimFloat.of_uint63 (Uint63.of_Z (Z.of_nat n)).

(* ===================================================================== *)
(** ** The canvas: the calls it receives, in order                       *)
(* ===================================================================== *)

Inductive draw_op : Type :=
| SetFont (psfontname : string) (size : Z)
| DrawCentredString (x y : float) (text : string)
| DrawString (x y : float) (text : string)
| DrawRightString (x y : float) (text : string)
| Line (x1 y1 x2 y2 : float)
| SetFillColorRGB (r g b : float)
| SetStrokeColorRGB (r g b : float)
| Rect (x y width height : float) (fill : bool).

Definition canvas := list draw_op.

(* ===================================================================== *)
(** ** Exceptions and the drawing monad                                  *)
(* ===================================================================== *)

Inductive exn : Type :=
| ValueError (msg : string)
| KeyError (key : string)
| OSError (msg : string)
| OverflowError (msg : string)
| AttributeError (msg : string)
| JSONDecodeError (msg : string).

(** [str(e)]; a [KeyError] shows its key between quotes. *)
Definition str_exn (e : exn) : string :=
  match e with
  | KeyError key => ("'" ++ key ++ "'")%string
  | ValueError m | OSError m | OverflowError m | AttributeError m
  | JSONDecodeError m => m
  end.

Inductive result (A : Type) : Type :=
| OK (a : A)
| Raise (e : exn).
Arguments OK {A} a.
Arguments Raise {A} e.

Definition rbind {A B} (r : result A) (k : A → result B) : result B :=
  match r with OK a => k a | Raise e => Raise e end.

(** A method that draws: it reads and extends the canvas, and either
    returns a value or raises. *)
Definition M (A : Type) : Type := canvas → result (A * canvas).

Definition ret {A} (a : A) : M A := fun c => OK (a, c).
Definition bind {A B} (m : M A) (k : A → M B) : M B :=
  fun c => match m c with
           | OK (a, c') => k a c'
           | Raise e => Raise e
           end.
Definition raise {A} (e : exn) : M A := fun _ => Raise e.
Definition lift {A} (r : result A) : M A :=
  fun c => match r with OK a => OK (a, c) | Raise e => Raise e end.
Definition draw (op : draw_op) : M unit := fun c => OK (tt, c ++ [op]).

Declare Scope draw_scope.
Delimit Scope draw_scope with draw.
Notation "x <- m ;; k" := (bind m (fun x => k))
  (at level 100, m at next level, right associativity) : draw_scope.
Notation "m ;; k" := (bind m (fun _ => k))
  (at level 100, right associativity) : draw_scope.
Open Scope draw_scope.

(** [for x in l: body(x)] *)
Fixpoint for_each {A} (l : list A) (body : A → M unit) : M unit :=
  match l with
  | [] => ret tt
  | x :: l' => body x ;; for_each l' body
  end.

(** A [for] loop whose body updates local variables [s]. *)
Fixpoint for_fold {A S} (l : list A) (s : S) (body : S → A → M S) : M S :=
  match l with
  | [] => ret s
  | x :: l' => s' <- body s x ;; for_fold l' s' body
  end.

(** [if cond: body] *)
Definition when (cond : bool) (body : M unit) : M unit :=
  if cond then body else ret tt.

(** [enumerate(l)] *)
Definition enumerate {A} (l : list A) : list (nat * A) :=
  zip (seq 0 (length l)) l.

(** The calls a drawing method adds to an empty canvas. *)
Definition emitted {A} (m : M A) : option canvas :=
  match m [] with OK (_, c) => Some c | Raise _ => None end.

(* ===================================================================== *)
(** ** class ObservationFormPDF                                          *)
(* ===================================================================== *)

Record ObservationFormPDF : Type := {
  output_path : string;
  page_width : float;
  page_height : float;
  margin : float
}.

(** [__init__] *)
Definition ObservationFormPDF_init (path : string) : ObservationFormPDF :=
  {| output_path := path;
     page_width := fst A4;
     page_height := snd A4;
     margin := (10 * mm)%float |}.

(** [facility_info.get(key, "")] *)
Definition get_str (d : gmap string string) (key : string) : string :=
  default ""%string (d !! key).

(** Truth value of a [str]: non-empty. *)
Definition truthy (s : string) : bool :=
  match s with EmptyString => false | String _ _ => true end.

Definition header_fields (facility_info : gmap string string)
  : list (string * string) :=
  [ ("施設名:", get_str facility_info "facilityName");
    ("部局:", get_str facility_info "department");
    ("病棟:", get_str facility_info "ward");
    ("科:", get_str facility_info "section");
    ("期間番号:", get_str facility_info "periodNumber");
    ("日付 (dd/mm/yy):", get_str facility_info "date");
    ("セッション番号:", get_str facility_info "sessionNumber");
    ("観察者 (initials):", get_str facility_info "observer");
    ("ページ№:", get_str facility_info "pageNumber");
    ("住所:", get_str facility_info "address") ]%string.

Definition _draw_header_info (self : ObservationFormPDF)
    (facility_info : gmap string string) (y_start : float) : M float :=
  draw (SetFont "HeiseiKakuGo-W5" 9) ;;
  let fields := header_fields facility_info in
  let line_height := (5 * mm)%float in
  let x_left := margin self in
  let x_right := (page_width self / 2 + 5 * mm)%float in
  for_each (enumerate fields) (fun '(i, (label, value)) =>
    let '(x, y) :=
      if (i mod 2 =? 0)%nat
      then (x_left, (y_start - float_of_nat (i / 2) * line_height)%float)
      else (x_right, (y_start - float_of_nat ((i - 1) / 2) * line_height)%float) in
    draw (DrawString x y label) ;;
    draw (Line (x + 25 * mm) (y - 1 * mm) (x + 60 * mm) (y - 1 * mm))%float ;;
    when (truthy value)
         (draw (DrawString (x + 26 * mm) (y - 2 * mm) value))%float) ;;
  ret (y_start - 6 * line_height)%float.

(* ===================================================================== *)
(** ** Local calendar dates (datetime.fromtimestamp, strftime)           *)
(* ===================================================================== *)

Section Calendar.
Local Open Scope Z_scope.

(** The civil date (year, month, day) of a day number counted from
    1970-01-01, in the proleptic Gregorian calendar of [datetime]: the
    day within its 400-year era (starting on 1 March), then the year of
    the era, the day of that year and the month. *)
Definition civil_from_days (days : Z) : Z * Z * Z :=
  let z := days + 719468 in
  let era := z / 146097 in
  let doe := z mod 146097 in
  let yoe := (doe - doe / 1460 + doe / 36524 - doe / 146096) / 365 in
  let doy := doe - (365 * yoe + yoe / 4 - yoe / 100) in
  let mp := (5 * doy + 2) / 153 in
  let d := doy - (153 * mp + 2) / 5 + 1 in
  let m := if mp <? 10 then mp + 3 else mp - 9 in
  let y := yoe + era * 400 + (if m <=? 2 then 1 else 0) in
  (y, m, d).

End Calendar.

(** Decimal digits of a non-negative integer, left-padded with zeros to
    [width] characters (the [%m] and [%d] fields of [strftime]). *)
Fixpoint zeros (n : nat) : string :=
  match n with O => EmptyString | S n' => String "0" (zeros n') end.

Definition zero_padded (width : nat) (n : Z) : string :=
  let digits := NilZero.string_of_uint (N.to_uint (Z.to_N n)) in
  (zeros (width - String.length digits) ++ digits)%string.

(** An integer in decimal ([%i], and the [%Y] field of [strftime]). *)
Definition str_Z (n : Z) : string :=
  if (n <? 0)%Z
  then ("-" ++ NilZero.string_of_uint (N.to_uint (Z.to_N (- n))))%string
  else NilZero.string_of_uint (N.to_uint (Z.to_N n)).

(** [d.strftime("%Y-%m-%d")], as the C library of Linux (glibc) formats it:
    [%m] and [%d] take two digits, [%Y] is the year without padding, so a
    year before 1000 gives a shorter key (["999-12-31"]). *)
Definition strftime_Ymd (date : Z * Z * Z) : string :=
  let '(y, m, d) := date in
  (str_Z y ++ "-" ++ zero_padded 2 m ++ "-" ++ zero_padded 2 d)%string.

(* ===================================================================== *)
(** ** Timestamps ([timestamp / 1000], the seconds of [fromtimestamp])    *)
(* ===================================================================== *)

Section Timestamp.
Local Open Scope Z_scope.

(** [a / b] rounded to the nearest integer, a tie to the even one
    ([0 < b]). *)
Definition round_half_even (a b : Z) : Z :=
  let q := a / b in
  let r := a mod b in
  if 2 * r <? b then q
  else if b <? 2 * r then q + 1
  else if Z.even q then q else q + 1.

(** [ms / 1000] for an integer [ms] is a float: the binary64 number
    [mant * 2 ^ e] nearest to the quotient, a tie going to the even
    mantissa.  [fromtimestamp] splits the float into whole seconds and
    microseconds, rounding downwards: the whole seconds are the floor of
    the float (the floor of the quotient itself for [ms] below [2 ^ 53] in
    absolute value).  [float_seconds ms] is that floor, [None] when the
    quotient is too large for a float. *)
Definition float_seconds (ms : Z) : option Z :=
  if ms =? 0 then Some 0
  else
    let a := Z.abs ms in
    let e := Z.log2 (a * 2 ^ 20 / 1000) - 20 - 52 in
    let mant :=
      if 0 <=? e then round_half_even a (1000 * 2 ^ e)
      else round_half_even (a * 2 ^ (- e)) 1000 in
    if (1024 <=? e + 52) || ((mant =? 2 ^ 53) && (1024 <=? e + 53)) then None
    else
      let mant := if ms <? 0 then - mant else mant in
      Some (if 0 <=? e then mant * 2 ^ e else mant / 2 ^ (- e)).

(** The seconds that [datetime.fromtimestamp(ms / 1000)] hands to the C
    library, a [time_t] of 64 bits.  The range check admits [2 ^ 63], which
    the conversion to [time_t] turns into [- 2 ^ 63]. *)
Definition time_t_of_ms (ms : Z) : result Z :=
  match float_seconds ms with
  | None => Raise (OverflowError "integer division result too large for a float")
  | Some q =>
      if (- 2 ^ 63 <=? q) && (q <=? 2 ^ 63)
      then OK (if q =? 2 ^ 63 then - 2 ^ 63 else q)
      else Raise (OverflowError "timestamp out of range for platform time_t")
  end.

(** A year as the C [int] in which [datetime] holds it. *)
Definition int_of_year (y : Z) : Z := (y + 2 ^ 31) mod 2 ^ 32 - 2 ^ 31.

End Timestamp.

(* ===================================================================== *)
(** ** Observation records and the lookup table of timings               *)
(* ===================================================================== *)

Definition timing_entry (name description : string) : gmap string string :=
  list_to_map [("name"%string, name); ("description"%string, description)].

Definition TIMINGS : gmap Z (gmap string string) :=
  list_to_map
    [ (1%Z, timing_entry "患者接触前" "患者に接触する前");
      (2%Z, timing_entry "清潔/無菌操作前" "清潔/無菌操作の前");
      (3%Z, timing_entry "体液曝露後" "体液曝露の可能性のある場合");
      (4%Z, timing_entry "患者接触後" "患者に接触した後");
      (5%Z, timing_entry "患者周辺物品接触後" "患者周辺物品に接触した後") ].

(** The table of actions. *)
Definition ACTIONS : gmap string string :=
  list_to_map
    [ ("hand_sanitizer", "手指消毒");
      ("hand_wash", "手洗い");
      ("no_action", "実施なし") ]%string.

(** A record of the input: a dictionary read with [get], so each of its
    three keys may be absent.  Values have the types of the input schema. *)
Record ObservationRecord : Type := {
  timestamp : option Z;
  timing : option Z;
  action : option string
}.

Global Instance ObservationRecord_eq_dec : EqDecision ObservationRecord.
Proof. solve_decision. Defined.

(** [r.get("timing")] *)
Definition get_timing (r : ObservationRecord) : option Z := timing r.

(** Comparison of [str] values: lexicographic by code point. *)
Definition string_le (s1 s2 : string) : Prop := String.leb s1 s2 = true.

Global Instance string_le_dec s1 s2 : Decision (string_le s1 s2).
Proof. unfold string_le. apply _. Defined.

(** [sorted(d.keys())] *)
Definition sorted_keys {V} (d : gmap string V) : list string :=
  merge_sort string_le (elements (dom d)).

(** [str(n)] for a session number. *)
Definition str_nat (n : nat) : string :=
  NilZero.string_of_uint (Nat.to_uint n).

(** [range(1, 6)] *)
Definition timing_range : list Z := [1; 2; 3; 4; 5]%Z.

(** One turn of the loop over [timing_records] that collects the checked
    glyphs. *)
Definition append_action (actions : list string) (record : ObservationRecord)
  : list string :=
  let action := default ""%string (action record) in
  if String.eqb action "hand_sanitizer" then actions ++ ["☑手指消毒"%string]
  else if String.eqb action "hand_wash" then actions ++ ["☑手洗い"%string]
  else if String.eqb action "no_action" then actions ++ ["☑実施なし"%string]
  else actions.

(** [" ".join(l)] *)
Definition join_space (l : list string) : string := String.concat " " l.

Definition table_width (self : ObservationFormPDF) : float :=
  (page_width self - 2 * margin self)%float.
Definition col_width (self : ObservationFormPDF) : float :=
  (table_width self / 4)%float.
Definition row_height : float := (8 * mm)%float.

(** The body of the loop over [range(1, 6)]: one row of a session. *)
Definition draw_timing_row (self : ObservationFormPDF) (session_num : nat)
    (session_records : list ObservationRecord) (y : float) (timing : Z)
  : M float :=
  let timing_records :=
    filter (fun r => get_timing r = Some timing) session_records in
  draw (SetFillColorRGB 1.0 0.96 0.94) ;;
  draw (Rect (margin self) (y - row_height) (table_width self) row_height true) ;;
  draw (SetFont "HeiseiKakuGo-W5" 7) ;;
  let timing_info := default ∅ (TIMINGS !! timing) in
  let timing_text :=
    (str_nat session_num ++ ". " ++ default "" (timing_info !! "name"))%string in
  draw (DrawString (margin self + 2 * mm) (y - row_height + 2 * mm) timing_text) ;;
  let applicable :=
    match timing_records with [] => "☐"%string | _ :: _ => "☑"%string end in
  draw (DrawString (margin self + col_width self + 2 * mm)
                   (y - row_height + 2 * mm) applicable) ;;
  let actions := foldl append_action [] timing_records in
  let actions :=
    match actions with
    | [] => ["☐手指消毒"; "☐手洗い"; "☐実施なし"]%string
    | _ :: _ => actions
    end in
  let action_text := join_space (take 2 actions) in
  draw (DrawString (margin self + 2 * col_width self + 2 * mm)
                   (y - row_height + 2 * mm) action_text) ;;
  draw (SetStrokeColorRGB 0.7 0.7 0.7) ;;
  draw (Rect (margin self) (y - row_height) (table_width self) row_height false) ;;
  ret (y - row_height)%float.

(** The decoded command-line document: [data.get("facilityInfo", {})] and
    [data.get("records", [])] read its two optional members, which have the
    types that [generate] declares for its parameters ([Dict[str, str]]
    and a list of records); the members of a record have the types of the
    input schema. *)
Record InputData : Type := {
  facilityInfo : option (gmap string string);
  records : option (list ObservationRecord)
}.

(** What [json.loads] returns for a text that it accepts: a document, or a
    value that is not an object (a list, a string, a number, [true],
    [false] or [null]), given by the name of its Python type. *)
Inductive decoded : Type :=
| Document (data : InputData)
| NotAnObject (type_name : string).

(** The import statements at the head of the module (lines 6 to 17). *)
Inductive import_stmt : Type :=
| FromImport (module : string) (names : list string)
| Import (module : string).

Definition imports : list import_stmt :=
  [ FromImport "reportlab.lib.pagesizes" ["A4"];
    FromImport "reportlab.lib.units" ["mm"; "pt"];
    FromImport "reportlab.pdfgen" ["canvas"];
    FromImport "reportlab.lib" ["colors"];
    FromImport "reportlab.platypus"
      ["Table"; "TableStyle"; "Paragraph"; "Spacer"; "PageBreak";
       "SimpleDocTemplate"];
    FromImport "reportlab.lib.styles" ["getSampleStyleSheet"; "ParagraphStyle"];
    FromImport "reportlab.lib.enums" ["TA_CENTER"; "TA_LEFT"; "TA_RIGHT"];
    FromImport "datetime" ["datetime"];
    FromImport "typing" ["List"; "Dict"; "Any"];
    Import "json";
    Import "sys";
    Import "io" ]%string.

(** What [print] writes to standard output: a text, or the text that
    [json.dumps] makes of a flat object. *)
Inductive json_value : Type :=
| JBool (b : bool)
| JString (s : string).

Inductive printed : Type :=
| Text (s : string)
| JsonObject (members : list (string * json_value)).

Section Environment.
(** The local time zone of the process: the offset of local time from
    UTC, in seconds, at a given UTC instant (seconds since the epoch). *)
Variable utcoffset : Z → Z.

(** The file system: whether the document can be written at a path. *)
Variable writable : string → bool.

(** [json.loads], which raises on a malformed text. *)
Variable json_loads : string → result decoded.

(** The modules that can be imported, each with the names that
    [from module import name] finds in it. *)
Variable importable : string → option (list string).

(** The drawing library in a new process: the exception that
    [Canvas.setFont] raises for a font name that it cannot find ([None]:
    the font is known). *)
Variable font_error : string → option exn.

(** [localtime]: the local date of the instant [t].  The C library fails
    when the year does not fit the [int] field that holds it, counted from
    1900 (for a zone given by a [TZ] rule instead of a zone file, already
    when the year in UTC does not fit). *)
Definition localtime_date (t : Z) : result (Z * Z * Z) :=
  let '(y, m, d) := civil_from_days ((t + utcoffset t) / 86400)%Z in
  if ((- 2 ^ 31 <=? y - 1900) && (y - 1900 <? 2 ^ 31))%Z
  then OK (y, m, d)
  else Raise (OSError "[Errno 75] Value too large for defined data type").

(** The local date of [t] within the years of [datetime], 1 to 9999. *)
Definition local_date (t : Z) : result (Z * Z * Z) :=
  rbind (localtime_date t) (fun '(y, m, d) =>
    if ((1 <=? y) && (y <=? 9999))%Z
    then OK (y, m, d)
    else Raise (ValueError ("year " ++ str_Z (int_of_year y)
                                    ++ " is out of range"))).

(** [datetime.fromtimestamp(ms / 1000)] for an integer [ms], reduced to
    its date.  After the local date of the instant itself, the search for
    a repeated hour reads the local time one day earlier and, when the
    clock went back in between, at the length of that step before the
    instant; each reading raises outside the years 1 to 9999. *)
Definition fromtimestamp_date (ms : Z) : result (Z * Z * Z) :=
  rbind (time_t_of_ms ms) (fun t =>
  rbind (local_date t) (fun date =>
  rbind (local_date (t - 86400)) (fun _ =>
  let transition := (utcoffset t - utcoffset (t - 86400))%Z in
  rbind (if (transition <? 0)%Z then local_date (t + transition) else OK date)
        (fun _ => OK date)))).

(** [datetime.fromtimestamp(record.get("timestamp", 0) / 1000)
       .strftime("%Y-%m-%d")] *)
Definition date_key (record : ObservationRecord) : result string :=
  rbind (fromtimestamp_date (default 0%Z (timestamp record)))
        (fun date => OK (strftime_Ymd date)).

(** One turn of the grouping loop: the dictionary after [record]. *)
Definition group_step (records_by_date : gmap string (list ObservationRecord))
    (record : ObservationRecord)
  : M (gmap string (list ObservationRecord)) :=
  date_key <- lift (date_key record) ;;
  let records_by_date :=
    match records_by_date !! date_key with
    | None => <[date_key := []]> records_by_date
    | Some _ => records_by_date
    end in
  ret (alter (fun l => l ++ [record]) date_key records_by_date).

(** The body of the loop over the session dates. *)
Definition draw_session (self : ObservationFormPDF)
    (records_by_date : gmap string (list ObservationRecord))
    (state : float * nat) (date_key : string) : M (float * nat) :=
  let '(y, session_num) := state in
  match records_by_date !! date_key with
  | None => raise (KeyError date_key)
  | Some session_records =>
      let session_num := (session_num + 1)%nat in
      y <- for_fold timing_range y
             (draw_timing_row self session_num session_records) ;;
      ret (y, session_num)
  end.

Definition table_headers : list string :=
  ["機会"; "適応"; "手指衛生"; "機会"]%string.

Definition _draw_observation_table (self : ObservationFormPDF)
    (records : list ObservationRecord) (y_start : float) : M float :=
  draw (SetFont "HeiseiKakuGo-W5" 8) ;;
  let y := (y_start - 10 * mm)%float in
  draw (SetFillColorRGB 0.93 0.84 0.75) ;;
  draw (Rect (margin self) (y - row_height) (table_width self) row_height true) ;;
  draw (SetFont "HeiseiKakuGo-W5" 7) ;;
  for_each (enumerate table_headers) (fun '(i, header) =>
    let x := (margin self + float_of_nat i * col_width self + 2 * mm)%float in
    draw (DrawString x (y - row_height + 2 * mm) header)) ;;
  let y := (y - row_height)%float in
  records_by_date <- for_fold records ∅ group_step ;;
  state <- for_fold (take 8 (sorted_keys records_by_date)) (y, 0%nat)
             (draw_session self records_by_date) ;;
  ret (fst state).

(** [c.save()] *)
Definition save (path : string) : M unit :=
  fun c => if writable path then OK (tt, c)
           else Raise (OSError "cannot write the output file").

(** [generate] returns the output path; the second component is the
    document that was saved there. *)
Definition generate (self : ObservationFormPDF)
    (facility_info : gmap string string) (records : list ObservationRecord)
  : result (string * canvas) :=
  let title := "泉州感染防止ネットワーク手指衛生直接観察用フォーム"%string in
  let body : M string :=
    draw (SetFont "HeiseiKakuGo-W5" 16) ;;
    draw (DrawCentredString (page_width self / 2)
                            (page_height self - 20 * mm) title) ;;
    draw (SetFont "HeiseiKakuGo-W5" 10) ;;
    draw (DrawCentredString (page_width self / 2)
                            (page_height self - 28 * mm) "観察フォーム") ;;
    let y_position := (page_height self - 35 * mm)%float in
    y_position <- _draw_header_info self facility_info y_position ;;
    y_position <- _draw_observation_table self records y_position ;;
    draw (SetFont "HeiseiKakuGo-W5" 8) ;;
    draw (DrawRightString (page_width self - 10 * mm) (10 * mm)
                          "WHO観察フォーム一部変換") ;;
    save (output_path self) ;;
    ret (output_path self) in
  body [].

(** [self.generate(...)] in a new process.  [generate] above is the method
    on a canvas that knows the font.  Every [setFont] of the class names
    the one font, which the module registers nowhere, and the first of them
    (line 58) is the first call on the canvas: when the library cannot find
    the font, the call raises there. *)
Definition generate_call (self : ObservationFormPDF)
    (facility_info : gmap string string) (records : list ObservationRecord)
  : result (string * canvas) :=
  match font_error "HeiseiKakuGo-W5" with
  | Some e => Raise e
  | None => generate self facility_info records
  end.

Definition generate_from_json (self : ObservationFormPDF)
    (json_data : string) : result (string * canvas) :=
  rbind (json_loads json_data) (fun data =>
    match data with
    | NotAnObject type_name =>
        Raise (AttributeError
                 ("'" ++ type_name ++ "' object has no attribute 'get'"))
    | Document data =>
        let facility_info := default ∅ (facilityInfo data) in
        let records := default [] (records data) in
        generate_call self facility_info records
    end).

(** [main]: what is printed on standard output, and the exit status. *)
Definition main (argv : list string) : list printed * Z :=
  if (length argv <? 3)%nat
  then ([Text "Usage: python pdf_generator.py <output_path> <json_data>"], 1%Z)
  else
    let output_path := default ""%string (argv !! 1%nat) in
    let json_data := default ""%string (argv !! 2%nat) in
    let generator := ObservationFormPDF_init output_path in
    match generate_from_json generator json_data with
    | OK (result_path, _) =>
        ([JsonObject [("success"%string, JBool true);
                      ("path"%string, JString result_path)]], 0%Z)
    | Raise e =>
        ([JsonObject [("success"%string, JBool false);
                      ("error"%string, JString (str_exn e))]], 1%Z)
    end.

(** An import statement succeeds when the module can be imported and has
    the names asked for. *)
Definition import_ok (stmt : import_stmt) : bool :=
  match stmt with
  | FromImport module names =>
      match importable module with
      | Some found => forallb (fun name => existsb (String.eqb name) found) names
      | None => false
      end
  | Import module =>
      match importable module with Some _ => true | None => false end
  end.

(** The script, run as [python pdf_generator.py ...]: the imports, then
    [main()] (lines 238 to 239).  An import that fails raises before
    [main] is defined: the interpreter writes the traceback on the error
    stream, nothing on standard output, and ends with status 1. *)
Definition script (argv : list string) : list printed * Z :=
  if forallb import_ok imports then main argv else ([], 1%Z).
End Environment.

(* ===================================================================== *)
(** * Notions used to state the properties                               *)
(* ===================================================================== *)

(** ** What a drawing method writes *)

(** [writes m a ops]: from any canvas, [m] returns [a] and adds exactly the
    calls [ops]. *)
Definition writes {A} (m : M A) (a : A) (ops : list draw_op) : Prop :=
  ∀ c, m c = OK (a, c ++ ops).

(* ===================================================================== *)
(** ** The header grid as the specification describes it                 *)
(* ===================================================================== *)

(** The form's header as the specification describes it: ten labelled
    fields in five rows of two columns. *)
Inductive column : Type := LeftColumn | RightColumn.

Definition header_grid : list (string * string * column * nat) :=
  [ ("施設名:", "facilityName", LeftColumn, 0);
    ("部局:", "department", RightColumn, 0);
    ("病棟:", "ward", LeftColumn, 1);
    ("科:", "section", RightColumn, 1);
    ("期間番号:", "periodNumber", LeftColumn, 2);
    ("日付 (dd/mm/yy):", "date", RightColumn, 2);
    ("セッション番号:", "sessionNumber", LeftColumn, 3);
    ("観察者 (initials):", "observer", RightColumn, 3);
    ("ページ№:", "pageNumber", LeftColumn, 4);
    ("住所:", "address", RightColumn, 4) ]%string.

Definition column_x (self : ObservationFormPDF) (col : column) : float :=
  match col with
  | LeftColumn => margin self
  | RightColumn => (page_width self / 2 + 5 * mm)%float
  end.

(** The calls of one cell: the label, the answer rule, and the value text
    when the field is present and not empty. *)
Definition header_cell (self : ObservationFormPDF)
    (facility_info : gmap string string) (y_start : float)
    (cell : string * string * column * nat) : list draw_op :=
  let '(label, key, col, row) := cell in
  let x := column_x self col in
  let y := (y_start - float_of_nat row * (5 * mm))%float in
  [ DrawString x y label;
    Line (x + 25 * mm) (y - 1 * mm) (x + 60 * mm) (y - 1 * mm) ]%float
  ++ match facility_info !! key with
     | Some (String a v) =>
         [DrawString (x + 26 * mm) (y - 2 * mm) (String a v)]%float
     | Some EmptyString | None => []
     end.

Definition column_of_index (i : nat) : column :=
  if Nat.even i then LeftColumn else RightColumn.

(* ===================================================================== *)
(** ** The order on date keys and the calendar                           *)
(* ===================================================================== *)

Definition string_lt (s1 s2 : string) : Prop := String.ltb s1 s2 = true.

Section DateCode.
Local Open Scope Z_scope.

(** A date as one number; on valid dates its order is the order of the
    calendar. *)
Definition date_code (date : Z * Z * Z) : Z :=
  let '(y, m, d) := date in y * 10000 + m * 100 + d.

Definition year_of_era (doe : Z) : Z :=
  (doe - doe / 1460 + doe / 36524 - doe / 146096) / 365.

Definition day_of_year (doe : Z) : Z :=
  doe - (365 * year_of_era doe + year_of_era doe / 4 - year_of_era doe / 100).

(** The code of a date within its era, from the year of the era and the
    day of the year (counted from 1 March). *)
Definition era_code (yoe doy : Z) : Z :=
  let mp := (5 * doy + 2) / 153 in
  let d := doy - (153 * mp + 2) / 5 + 1 in
  let m := if mp <? 10 then mp + 3 else mp - 9 in
  (yoe + (if m <=? 2 then 1 else 0)) * 10000 + m * 100 + d.

End DateCode.

(** Bounded checks: [ok] holds at [k], [k + 1], ..., [n] values in all. *)
Fixpoint all_from (n : nat) (k : Z) (ok : Z → bool) : bool :=
  match n with
  | O => true
  | S n' => ok k && all_from n' (k + 1) ok
  end.

Definition padded_length_ok (w : nat) (n : Z) : bool :=
  (String.length (zero_padded w n) =? w)%nat.

Definition padded_step_ok (w : nat) (n : Z) : bool :=
  String.ltb (zero_padded w n) (zero_padded w (n + 1)).

Definition year_digits_ok (y : Z) : bool :=
  String.eqb (str_Z y) (zero_padded 4 y).

(* ===================================================================== *)
(** ** The calls of the observation table                                *)
(* ===================================================================== *)

(** The row cursor after [n] rows: one row height is subtracted per row. *)
Fixpoint rows_down (n : nat) (y : float) : float :=
  match n with
  | O => y
  | S n' => rows_down n' (y - row_height)%float
  end.

(** The parts of a data row, named after the local variables of the loop
    body. *)
Definition timing_records (session_records : list ObservationRecord) (t : Z)
  : list ObservationRecord :=
  filter (fun r => get_timing r = Some t) session_records.

Definition timing_text (session_num : nat) (t : Z) : string :=
  (str_nat session_num ++ ". "
     ++ default "" (default ∅ (TIMINGS !! t) !! "name"))%string.

Definition applicable_text (session_records : list ObservationRecord) (t : Z)
  : string :=
  match timing_records session_records t with
  | [] => "☐"%string
  | _ :: _ => "☑"%string
  end.

Definition displayed_actions (session_records : list ObservationRecord) (t : Z)
  : list string :=
  take 2 match foldl append_action [] (timing_records session_records t) with
         | [] => ["☐手指消毒"; "☐手洗い"; "☐実施なし"]%string
         | a :: l => a :: l
         end.

(** The eight calls of one data row whose top edge is at [y]. *)
Definition row_ops (self : ObservationFormPDF) (session_num : nat)
    (session_records : list ObservationRecord) (y : float) (t : Z)
  : list draw_op :=
  [ SetFillColorRGB 1.0 0.96 0.94;
    Rect (margin self) (y - row_height) (table_width self) row_height true;
    SetFont "HeiseiKakuGo-W5" 7;
    DrawString (margin self + 2 * mm) (y - row_height + 2 * mm)
               (timing_text session_num t);
    DrawString (margin self + col_width self + 2 * mm)
               (y - row_height + 2 * mm)
               (applicable_text session_records t);
    DrawString (margin self + 2 * col_width self + 2 * mm)
               (y - row_height + 2 * mm)
               (join_space (displayed_actions session_records t));
    SetStrokeColorRGB 0.7 0.7 0.7;
    Rect (margin self) (y - row_height) (table_width self) row_height false
  ]%float.

(** The rows of one session for the timings [ts], downwards from [y]. *)
Fixpoint rows_ops (self : ObservationFormPDF) (session_num : nat)
    (session_records : list ObservationRecord) (y : float) (ts : list Z)
  : list draw_op :=
  match ts with
  | [] => []
  | t :: ts' =>
      row_ops self session_num session_records y t
        ++ rows_ops self session_num session_records (y - row_height)%float ts'
  end.

(** The blocks of the sessions [groups], numbered from [n + 1]. *)
Fixpoint sessions_ops (self : ObservationFormPDF) (n : nat)
    (groups : list (list ObservationRecord)) (y : float) : list draw_op :=
  match groups with
  | [] => []
  | g :: groups' =>
      rows_ops self (n + 1) g y timing_range
        ++ sessions_ops self (n + 1) groups' (rows_down 5 y)
  end.

(** The header row of the table. *)
Definition table_head_ops (self : ObservationFormPDF) (y_start : float)
  : list draw_op :=
  let y := (y_start - 10 * mm)%float in
  [ SetFont "HeiseiKakuGo-W5" 8;
    SetFillColorRGB 0.93 0.84 0.75;
    Rect (margin self) (y - row_height) (table_width self) row_height true;
    SetFont "HeiseiKakuGo-W5" 7;
    DrawString (margin self + float_of_nat 0 * col_width self + 2 * mm)
               (y - row_height + 2 * mm) "機会";
    DrawString (margin self + float_of_nat 1 * col_width self + 2 * mm)
               (y - row_height + 2 * mm) "適応";
    DrawString (margin self + float_of_nat 2 * col_width self + 2 * mm)
               (y - row_height + 2 * mm) "手指衛生";
    DrawString (margin self + float_of_nat 3 * col_width self + 2 * mm)
               (y - row_height + 2 * mm) "機会" ]%float.

(** The data rows of a table: session [i] (counted from 0) of [days] has
    number [i + 1] and starts [5 * i] rows below the header row. *)
Definition data_rows_ops (self : ObservationFormPDF)
    (group : string → list ObservationRecord) (days : list string)
    (y_start : float) : list draw_op :=
  concat (imap (fun i k =>
                  rows_ops self (i + 1) (group k)
                    (rows_down (5 * i) (y_start - 10 * mm - row_height)%float)
                    timing_range) days).

(** The number of filled bands (the header row and the data rows) among
    the calls. *)
Fixpoint filled_rects (ops : list draw_op) : nat :=
  match ops with
  | [] => 0
  | Rect _ _ _ _ true :: ops' => S (filled_rects ops')
  | _ :: ops' => filled_rects ops'
  end.

(** The cursor that the specification states: the start cursor minus the
    row height times the number of rows. *)
Definition spec_table_cursor (y_start : float) (sessions : nat) : float :=
  (y_start - row_height * float_of_nat (1 + 5 * sessions))%float.

(** A data row with nothing checked. *)
Definition blank_row_ops (self : ObservationFormPDF) (session_num : nat)
    (y : float) (t : Z) : list draw_op :=
  [ SetFillColorRGB 1.0 0.96 0.94;
    Rect (margin self) (y - row_height) (table_width self) row_height true;
    SetFont "HeiseiKakuGo-W5" 7;
    DrawString (margin self + 2 * mm) (y - row_height + 2 * mm)
               (timing_text session_num t);
    DrawString (margin self + col_width self + 2 * mm)
               (y - row_height + 2 * mm) "☐";
    DrawString (margin self + 2 * col_width self + 2 * mm)
               (y - row_height + 2 * mm) "☐手指消毒 ☐手洗い";
    SetStrokeColorRGB 0.7 0.7 0.7;
    Rect (margin self) (y - row_height) (table_width self) row_height false
  ]%float.

(** Five blank rows, for the timings 1 to 5, downwards from [y]. *)
Definition blank_block (self : ObservationFormPDF) (session_num : nat)
    (y : float) : list draw_op :=
  blank_row_ops self session_num y 1
    ++ blank_row_ops self session_num (rows_down 1 y) 2
    ++ blank_row_ops self session_num (rows_down 2 y) 3
    ++ blank_row_ops self session_num (rows_down 3 y) 4
    ++ blank_row_ops self session_num (rows_down 4 y) 5.

(* ===================================================================== *)
(** ** The cells of a data row                                           *)
(* ===================================================================== *)

(** The checked glyph of a record whose action is one of the three known
    kinds. *)
Definition checked_glyph (r : ObservationRecord) : option string :=
  match action r with
  | Some a =>
      if decide (a = "hand_sanitizer"%string) then Some "☑手指消毒"%string
      else if decide (a = "hand_wash"%string) then Some "☑手洗い"%string
      else if decide (a = "no_action"%string) then Some "☑実施なし"%string
      else None
  | None => None
  end.

(** The third column as the specification words it: the matched action
    kinds, deduplicated in first-seen order, capped to two. *)
Fixpoint dedup_first_seen (l : list string) : list string :=
  match l with
  | [] => []
  | x :: l' => x :: filter (fun y => y ≠ x) (dedup_first_seen l')
  end.

Definition spec_displayed_actions (session_records : list ObservationRecord)
    (t : Z) : list string :=
  take 2 (dedup_first_seen
            (omap checked_glyph (timing_records session_records t))).

(** The timing of the record is absent or is none of 1 to 5. *)
Definition unmatched_timing (r : ObservationRecord) : Prop :=
  Forall (fun t => timing r ≠ Some t) timing_range.

(* ===================================================================== *)
(** ** Session days                                                      *)
(* ===================================================================== *)

Section Days.
Variable utcoffset : Z → Z.

(** A record is dated when its timestamp falls in the range of
    [datetime], so that it has a date key. *)
Definition dated (r : ObservationRecord) : Prop :=
  ∃ k, date_key utcoffset r = OK k.

(** The date key of a dated record. *)
Definition key_of (r : ObservationRecord) : string :=
  match date_key utcoffset r with OK k => k | Raise _ => ""%string end.

(** The records of one calendar day, in input order. *)
Definition day_group (records : list ObservationRecord) (k : string)
  : list ObservationRecord :=
  filter (fun r => key_of r = k) records.

(** The distinct calendar days of a record list. *)
Definition distinct_days (records : list ObservationRecord) : gset string :=
  list_to_set (map key_of records).

(** The days of the sessions that are drawn. *)
Definition session_days (records : list ObservationRecord) : list string :=
  take 8 (merge_sort string_le (elements (distinct_days records))).


(** A record whose local date lies in the years 1000 to 9999, which [%Y]
    writes with four digits. *)
Definition four_digit_year (r : ObservationRecord) : Prop :=
  ∃ y m d,
    fromtimestamp_date utcoffset (default 0%Z (timestamp r)) = OK (y, m, d)
    ∧ (1000 ≤ y)%Z.

(** The number of the local calendar day of a record, counted from
    1970-01-01. *)
Definition local_day (r : ObservationRecord) : Z :=
  match time_t_of_ms (default 0%Z (timestamp r)) with
  | OK secs => ((secs + utcoffset secs) / 86400)%Z
  | Raise _ => 0%Z
  end.

End Days.

(** The entry of a day in the dictionary after the grouping loop has seen
    the records [new] of that day. *)
Definition extend_group (old : option (list ObservationRecord))
    (new : list ObservationRecord) : option (list ObservationRecord) :=
  match old with
  | Some l => Some (l ++ new)
  | None => match new with [] => None | _ :: _ => Some new end
  end.

(** Boolean forms, to check sample inputs by evaluation. *)
Definition datedb (utcoffset : Z → Z) (r : ObservationRecord) : bool :=
  match date_key utcoffset r with OK _ => true | Raise _ => false end.


(* ===================================================================== *)
(** ** The whole document                                                *)
(* ===================================================================== *)

(** The ten keys that the header reads. *)
Definition header_keys : list string :=
  [ "facilityName"; "department"; "ward"; "section"; "periodNumber";
    "date"; "sessionNumber"; "observer"; "pageNumber"; "address" ]%string.

(** The calls that [generate] makes before the header and after the
    table. *)
Definition title_ops (self : ObservationFormPDF) : list draw_op :=
  [ SetFont "HeiseiKakuGo-W5" 16;
    DrawCentredString (page_width self / 2) (page_height self - 20 * mm)
      "泉州感染防止ネットワーク手指衛生直接観察用フォーム";
    SetFont "HeiseiKakuGo-W5" 10;
    DrawCentredString (page_width self / 2) (page_height self - 28 * mm)
      "観察フォーム" ]%float.

Definition footer_ops (self : ObservationFormPDF) : list draw_op :=
  [ SetFont "HeiseiKakuGo-W5" 8;
    DrawRightString (page_width self - 10 * mm) (10 * mm)
      "WHO観察フォーム一部変換" ]%float.

(** The cursor at which [generate] starts the table: the one that the
    header returns for the cursor it is given. *)
Definition table_start (self : ObservationFormPDF) : float :=
  (page_height self - 35 * mm - 6 * (5 * mm))%float.

(** The whole document for records that all have a date. *)
Definition document_ops (utcoffset : Z → Z) (self : ObservationFormPDF)
    (facility_info : gmap string string) (records : list ObservationRecord)
  : list draw_op :=
  title_ops self
    ++ (SetFont "HeiseiKakuGo-W5" 9
          :: flat_map (header_cell self facility_info
                         (page_height self - 35 * mm)%float) header_grid)
    ++ (table_head_ops self (table_start self)
          ++ data_rows_ops self (day_group utcoffset records)
               (session_days utcoffset records) (table_start self))
    ++ footer_ops self.

(** The lower edges of the rectangles among the calls. *)
Fixpoint rect_bottoms (ops : list draw_op) : list float :=
  match ops with
  | [] => []
  | Rect _ y _ _ _ :: ops' => y :: rect_bottoms ops'
  | _ :: ops' => rect_bottoms ops'
  end.

(** The lower edges of [n] rows drawn downwards from [y]: each row draws
    its band and its border at the same place. *)
Fixpoint row_bottoms (n : nat) (y : float) : list float :=
  match n with
  | O => []
  | S n' => (y - row_height)%float :: (y - row_height)%float
              :: row_bottoms n' (y - row_height)%float
  end.

(* ===================================================================== *)
(** ** Fill colours                                                      *)
(* ===================================================================== *)

(** A fill colour, as [setFillColorRGB] receives it. *)
Definition colour : Type := float * float * float.

Definition header_tint : colour := (0.93, 0.84, 0.75)%float.
Definition row_tint : colour := (1.0, 0.96, 0.94)%float.

(** The fill colour in force after the calls [ops], when it was [fill]
    before them ([None]: the initial colour of the canvas). *)
Fixpoint fill_after (fill : option colour) (ops : list draw_op)
  : option colour :=
  match ops with
  | [] => fill
  | SetFillColorRGB r g b :: ops' => fill_after (Some (r, g, b)) ops'
  | _ :: ops' => fill_after fill ops'
  end.

(** The strings among the calls. *)
Fixpoint texts (ops : list draw_op) : list string :=
  match ops with
  | [] => []
  | DrawString _ _ text :: ops'
  | DrawCentredString _ _ text :: ops'
  | DrawRightString _ _ text :: ops' => text :: texts ops'
  | _ :: ops' => texts ops'
  end.

(** The strings among the calls, each with the fill colour in force when
    it is drawn. *)
Fixpoint string_fills (fill : option colour) (ops : list draw_op)
  : list (string * option colour) :=
  match ops with
  | [] => []
  | SetFillColorRGB r g b :: ops' => string_fills (Some (r, g, b)) ops'
  | DrawString _ _ text :: ops'
  | DrawCentredString _ _ text :: ops'
  | DrawRightString _ _ text :: ops' => (text, fill) :: string_fills fill ops'
  | _ :: ops' => string_fills fill ops'
  end.

(** The fill colours of the filled rectangles among the calls. *)
Fixpoint band_fills (fill : option colour) (ops : list draw_op)
  : list (option colour) :=
  match ops with
  | [] => []
  | SetFillColorRGB r g b :: ops' => band_fills (Some (r, g, b)) ops'
  | Rect _ _ _ _ true :: ops' => fill :: band_fills fill ops'
  | _ :: ops' => band_fills fill ops'
  end.

(** Strings drawn at one fill colour. *)
Definition drawn_at (fill : option colour) (l : list string)
  : list (string * option colour) :=
  map (fun text => (text, fill)) l.

(* ===================================================================== *)
(** ** The answer of the command line                                    *)
(* ===================================================================== *)

(** The two shapes of the JSON answer. *)
Definition json_success (path : string) : printed :=
  JsonObject [("success"%string, JBool true); ("path"%string, JString path)].
Definition json_failure (message : string) : printed :=
  JsonObject [("success"%string, JBool false);
              ("error"%string, JString message)].

Definition json_envelope (line : printed) : Prop :=
  (∃ path, line = json_success path) ∨ (∃ message, line = json_failure message).

Definition usage : string :=
  "Usage: python pdf_generator.py <output_path> <json_data>".

(* ===================================================================== *)
(** ** Sample inputs                                                     *)
(* ===================================================================== *)

Definition utc : Z → Z := fun _ => 0%Z.
Definition jst : Z → Z := fun _ => 32400%Z.

(** A record at noon UTC of the [n]-th day after 2024-01-01. *)
Definition record_on_day (n : Z) : ObservationRecord :=
  {| timestamp := Some ((19723 + n) * 86400000 + 43200000)%Z;
     timing := Some 1%Z;
     action := Some "hand_wash"%string |}.

(** Nine distinct days, the latest first. *)
Definition nine_days : list ObservationRecord :=
  map record_on_day [8; 0; 1; 2; 3; 4; 5; 6; 7]%Z.

Definition eight_days : list ObservationRecord :=
  map record_on_day [0; 1; 2; 3; 4; 5; 6; 7]%Z.

Definition sanitizer_at_1 : ObservationRecord :=
  {| timestamp := Some 1704103200000%Z;
     timing := Some 1%Z;
     action := Some "hand_sanitizer"%string |}.

Definition timing_nine : ObservationRecord :=
  {| timestamp := Some 1704103200000%Z;
     timing := Some 9%Z;
     action := Some "hand_wash"%string |}.

(** The first second of the year 1 in UTC. *)
Definition first_day_of_year_1 : ObservationRecord :=
  {| timestamp := Some (-62135596800000)%Z;
     timing := Some 1%Z;
     action := Some "hand_wash"%string |}.

(** Noon UTC of 999-12-31. *)
Definition year_999 : ObservationRecord :=
  {| timestamp := Some (-30610267200000)%Z;
     timing := Some 1%Z;
     action := Some "hand_wash"%string |}.

(** A timestamp in microseconds instead of milliseconds: its year is far
    beyond 9999. *)
Definition far_future : ObservationRecord :=
  {| timestamp := Some 1704103200000000%Z;
     timing := Some 1%Z;
     action := Some "hand_wash"%string |}.


Definition evening_utc : ObservationRecord :=
  {| timestamp := Some 1704139200000%Z;   (* 2024-01-01 20:00 UTC *)
     timing := Some 1%Z;
     action := Some "hand_wash"%string |}.

Definition night_utc : ObservationRecord :=
  {| timestamp := Some 1704157200000%Z;   (* 2024-01-02 01:00 UTC *)
     timing := Some 2%Z;
     action := Some "hand_sanitizer"%string |}.

Definition always_writable : string → bool := fun _ => true.

(** A decoder for the sample runs: it accepts the empty object and the
    empty list only. *)
Definition sample_loads (s : string) : result decoded :=
  if String.eqb s "{}"
  then OK (Document {| facilityInfo := None; records := None |})
  else if String.eqb s "[]" then OK (NotAnObject "list")
  else Raise (JSONDecodeError "Expecting value").

(** The modules of a sample installation: every module that the script
    imports is there with the names asked for, except that
    [reportlab.lib.units] has the names that the library defines there,
    of which [pt] is none. *)
Definition sample_modules (module : string) : option (list string) :=
  if String.eqb module "reportlab.lib.units"
  then Some ["inch"; "cm"; "mm"; "pica"; "toLength"]%string
  else
    match
      List.find (fun stmt => match stmt with
                             | FromImport m _ | Import m => String.eqb m module
                             end) imports
    with
    | Some (FromImport _ names) => Some names
    | Some (Import _) => Some []
    | None => None
    end.

(** A library that knows no font of the Heisei family. *)
Definition no_heisei_font (name : string) : option exn :=
  if String.prefix "Heisei" name then Some (KeyError name) else None.

(** The number of calls of a generated document. *)
Definition drawn_calls (r : result (string * canvas)) : option nat :=
  match r with OK (_, doc) => Some (length doc) | Raise _ => None end.

(* ===================================================================== *)
(** * Properties                                                         *)
(* ===================================================================== *)

(** ** Reasoning about drawing methods *)

Lemma writes_ret {A} (a : A) : writes (ret a) a [].
Proof. intros c. unfold ret. by rewrite app_nil_r. Qed.

Lemma writes_draw op : writes (draw op) tt [op].
Proof. by intros c. Qed.

Lemma writes_bind {A B} (m : M A) (k : A → M B) a b ops1 ops2 :
  writes m a ops1 → writes (k a) b ops2 → writes (bind m k) b (ops1 ++ ops2).
Proof.
  intros Hm Hk c. unfold bind. rewrite Hm, Hk. by rewrite (assoc_L (++)).
Qed.

Lemma writes_when (cond : bool) body ops :
  writes body tt ops → writes (when cond body) tt (if cond then ops else []).
Proof. destruct cond; [done | intros _; apply writes_ret]. Qed.

Lemma writes_emitted {A} (m : M A) a ops : writes m a ops → emitted m = Some ops.
Proof. intros H. unfold emitted. by rewrite H. Qed.

Lemma writes_draw_bind {B} op (k : unit → M B) b ops :
  writes (k tt) b ops → writes (bind (draw op) k) b (op :: ops).
Proof. intros Hk. apply (writes_bind _ _ tt b [op] ops); [apply writes_draw | done]. Qed.

Ltac writes_step :=
  cbv zeta; cbn [app];
  lazymatch goal with
  | |- writes (bind (draw _) _) _ _ => apply writes_draw_bind
  | |- writes (ret _) _ _ => apply writes_ret
  end.

Lemma writes_then_ret {A B} (m : M A) (a : A) (b : B) ops :
  writes m a ops → writes (bind m (fun _ => ret b)) b ops.
Proof.
  intros Hm. rewrite <- (app_nil_r ops).
  eapply writes_bind; [exact Hm | apply writes_ret].
Qed.

Lemma writes_map {A B} (m : M A) (f : A → B) (a : A) ops :
  writes m a ops → writes (bind m (fun x => ret (f x))) (f a) ops.
Proof.
  intros Hm. rewrite <- (app_nil_r ops).
  eapply writes_bind; [exact Hm | apply writes_ret].
Qed.

Lemma writes_for_each2 {A B} (l : list A) (g : list B) body
    (f : B → list draw_op) :
  Forall2 (fun x s => writes (body x) tt (f s)) l g →
  writes (for_each l body) tt (flat_map f g).
Proof.
  induction 1 as [|x s l g Hx _ IH]; simpl.
  - apply writes_ret.
  - eapply writes_bind; [exact Hx | exact IH].
Qed.

(* ===================================================================== *)
(** ** The header grid                                                   *)
(* ===================================================================== *)

Lemma header_loop_body self facility_info y_start i label key :
  let value := get_str facility_info key in
  writes
    (let '(x, y) :=
       if (i mod 2 =? 0)%nat
       then (margin self, (y_start - float_of_nat (i / 2) * (5 * mm))%float)
       else ((page_width self / 2 + 5 * mm)%float,
             (y_start - float_of_nat ((i - 1) / 2) * (5 * mm))%float) in
     draw (DrawString x y label) ;;
     draw (Line (x + 25 * mm) (y - 1 * mm) (x + 60 * mm) (y - 1 * mm))%float ;;
     when (truthy value)
          (draw (DrawString (x + 26 * mm) (y - 2 * mm) value))%float)
    tt
    (header_cell self facility_info y_start
       (label, key, column_of_index i, ((i - i mod 2) / 2)%nat)).
Proof.
  intros value. unfold header_cell, column_of_index, column_x.
  assert (Hval : (if truthy value
                  then [DrawString
                          ((if Nat.even i then margin self
                            else page_width self / 2 + 5 * mm) + 26 * mm)
                          (y_start - float_of_nat ((i - i mod 2) / 2) * (5 * mm)
                           - 2 * mm) value]%float
                  else []) =
                 match facility_info !! key with
                 | Some (String a v) =>
                     [DrawString
                        ((if Nat.even i then margin self
                          else page_width self / 2 + 5 * mm) + 26 * mm)
                        (y_start - float_of_nat ((i - i mod 2) / 2) * (5 * mm)
                         - 2 * mm) (String a v)]%float
                 | _ => []
                 end).
  { subst value. unfold get_str. by destruct (facility_info !! key) as [[|a v]|]. }
  destruct (Nat.even i) eqn:Hev.
  - apply Nat.even_spec in Hev as [k ->].
    replace ((2 * k) mod 2)%nat with 0%nat in *
      by (symmetry; apply Nat.Div0.mod_same || (rewrite Nat.mul_comm; apply Nat.Div0.mod_mul)).
    rewrite Nat.sub_0_r in *. simpl Nat.eqb. cbv iota beta.
    do 2 writes_step. rewrite <- Hval. apply writes_when, writes_draw.
  - assert (Hodd : Nat.odd i = true) by (by rewrite <- Nat.negb_even, Hev).
    apply Nat.odd_spec in Hodd as [k ->].
    replace ((2 * k + 1) mod 2)%nat with 1%nat in *
      by (rewrite Nat.add_comm, Nat.mul_comm, Nat.Div0.mod_add; reflexivity).
    simpl Nat.eqb. cbv iota beta.
    do 2 writes_step. rewrite <- Hval. apply writes_when, writes_draw.
Qed.

Lemma header_writes self facility_info y_start :
  writes (_draw_header_info self facility_info y_start)
         (y_start - 6 * (5 * mm))%float
         (SetFont "HeiseiKakuGo-W5" 9
            :: flat_map (header_cell self facility_info y_start) header_grid).
Proof.
  unfold _draw_header_info. writes_step.
  apply (writes_then_ret _ tt), writes_for_each2.
  unfold header_fields, header_grid, enumerate.
  cbn [length seq zip zip_with].
  repeat (constructor;
          [lazymatch goal with
           | |- writes _ tt (header_cell _ _ _ (?label, ?key, _, _)) =>
               lazymatch goal with
               | |- context [(?i mod 2 =? 0)%nat] =>
                   exact (header_loop_body self facility_info y_start i label key)
               end
           end|]).
  constructor.
Qed.

(** C6: the header layout draws the ten fixed labels, each with its answer
    rule, in the fixed grid of five rows and two columns (even index in the
    left column, odd index in the right column, two cells per row); the
    value text is drawn only for a field that is present and not empty; the
    returned cursor is the start cursor minus six row pitches. *)
Theorem header_layout_grid self facility_info y_start c :
  _draw_header_info self facility_info y_start c =
    OK ((y_start - 6 * (5 * mm))%float,
        c ++ SetFont "HeiseiKakuGo-W5" 9
          :: flat_map (header_cell self facility_info y_start) header_grid)
  ∧ length header_grid = 10
  ∧ (∀ i label key col row,
       header_grid !! i = Some (label, key, col, row) →
       col = column_of_index i ∧ row = (i / 2)%nat)
  ∧ (∀ cell, cell ∈ header_grid →
       ∃ label key x y,
         cell.1.1 = (label, key) ∧
         header_cell self facility_info y_start cell =
           [ DrawString x y label;
             Line (x + 25 * mm) (y - 1 * mm) (x + 60 * mm) (y - 1 * mm) ]%float
           ++ match facility_info !! key with
              | Some value =>
                  if decide (value = ""%string) then []
                  else [DrawString (x + 26 * mm) (y - 2 * mm) value]%float
              | None => []
              end).
Proof.
  split; [apply header_writes|]. split; [reflexivity|]. split.
  - intros i label key col row Hi.
    do 10 (destruct i as [|i]; [by inversion Hi|]). inversion Hi.
  - intros [[[label key] col] row] _. eexists label, key, _, _.
    split; [reflexivity|]. unfold header_cell. f_equal.
    destruct (facility_info !! key) as [[|a v]|]; done.
Qed.

(* ===================================================================== *)
(** ** The order on date keys                                            *)
(* ===================================================================== *)

Lemma string_compare_refl s : String.compare s s = Eq.
Proof.
  induction s as [|a s IH]; simpl; [done|].
  unfold Ascii.compare. by rewrite N.compare_refl.
Qed.

Lemma string_compare_lt_trans s1 s2 s3 :
  String.compare s1 s2 = Lt → String.compare s2 s3 = Lt →
  String.compare s1 s3 = Lt.
Proof.
  revert s2 s3. induction s1 as [|a1 s1 IH]; intros [|a2 s2] [|a3 s3]; simpl;
    try done.
  unfold Ascii.compare.
  destruct (N.compare_spec (N_of_ascii a1) (N_of_ascii a2)) as [E12|L12|G12];
    try done;
  destruct (N.compare_spec (N_of_ascii a2) (N_of_ascii a3)) as [E23|L23|G23];
    try done; intros H12 H23.
  - rewrite E12, E23, N.compare_refl. eauto.
  - rewrite E12. by apply N.compare_lt_iff in L23 as ->.
  - rewrite <- E23. by apply N.compare_lt_iff in L12 as ->.
  - assert (N_of_ascii a1 < N_of_ascii a3)%N as Hlt by lia.
    by apply N.compare_lt_iff in Hlt as ->.
Qed.

Lemma string_le_lt_or_eq s1 s2 : string_le s1 s2 ↔ string_lt s1 s2 ∨ s1 = s2.
Proof.
  unfold string_le, string_lt, String.leb, String.ltb. split.
  - destruct (String.compare s1 s2) eqn:E; try done; [|by left].
    right. by apply String.compare_eq_iff.
  - intros [H| ->]; [by destruct (String.compare s1 s2)|].
    by rewrite string_compare_refl.
Qed.

Lemma string_lt_irrefl s : ¬ string_lt s s.
Proof. unfold string_lt, String.ltb. by rewrite string_compare_refl. Qed.

Lemma string_lt_trans s1 s2 s3 :
  string_lt s1 s2 → string_lt s2 s3 → string_lt s1 s3.
Proof.
  unfold string_lt, String.ltb. intros H12 H23.
  destruct (String.compare s1 s2) eqn:E12; try done.
  destruct (String.compare s2 s3) eqn:E23; try done.
  by rewrite (string_compare_lt_trans _ _ _ E12 E23).
Qed.

Global Instance string_le_refl : Reflexive string_le.
Proof. intros s. apply string_le_lt_or_eq. by right. Qed.

Global Instance string_le_trans : Transitive string_le.
Proof.
  intros s1 s2 s3 [H12| ->]%string_le_lt_or_eq [H23| ->]%string_le_lt_or_eq;
    apply string_le_lt_or_eq; eauto using string_lt_trans.
Qed.

Global Instance string_le_antisym : AntiSymm (=) string_le.
Proof. intros s1 s2. apply String.leb_antisym. Qed.

Global Instance string_le_total : Total string_le.
Proof. intros s1 s2. apply String.leb_total. Qed.

Lemma string_le_neq_lt s1 s2 : string_le s1 s2 → s1 ≠ s2 → string_lt s1 s2.
Proof. intros [H|H]%string_le_lt_or_eq ?; done. Qed.

(** *** Sorted prefixes *)

Lemma StronglySorted_take {A} (R : relation A) n l :
  StronglySorted R l → StronglySorted R (take n l).
Proof.
  intros H. revert n. induction H as [|x l Hl IH Hx]; intros [|n]; simpl;
    try constructor; auto.
  apply Forall_forall. intros y Hy.
  apply (proj1 (Forall_forall (R x) l)); [done|].
  eapply subseteq_take. done.
Qed.

Lemma StronglySorted_take_before {A} (R : relation A) n l x y :
  StronglySorted R l → x ∈ take n l → y ∈ drop n l → R x y.
Proof.
  intros H Hx Hy. rewrite <- (take_drop n l) in H.
  induction (take n l) as [|z t IH]; [by apply elem_of_nil in Hx|].
  simpl in H. apply StronglySorted_inv in H as [Ht Hz].
  apply elem_of_cons in Hx as [->|Hx]; [|by apply IH].
  apply (proj1 (Forall_forall (R z) (t ++ drop n l))); [done|].
  apply elem_of_app. by right.
Qed.

(* ===================================================================== *)
(** ** Date keys follow the calendar                                     *)
(* ===================================================================== *)

Section CalendarOrder.
Local Open Scope Z_scope.

Lemma date_code_civil days :
  date_code (civil_from_days days)
  = 4000000 * ((days + 719468) / 146097)
    + era_code (year_of_era ((days + 719468) mod 146097))
               (day_of_year ((days + 719468) mod 146097)).
Proof.
  unfold civil_from_days, date_code, era_code, day_of_year, year_of_era.
  cbv zeta. lia.
Qed.

Lemma year_of_era_mono a b :
  0 <= a <= b → b < 146097 → year_of_era a <= year_of_era b.
Proof. unfold year_of_era. intros. Z.div_mod_to_equations; lia. Qed.

Lemma year_of_era_range a : 0 <= a < 146097 → 0 <= year_of_era a <= 399.
Proof. unfold year_of_era. intros. Z.div_mod_to_equations; lia. Qed.

Lemma day_of_year_range a : 0 <= a < 146097 → 0 <= day_of_year a <= 365.
Proof.
  unfold day_of_year, year_of_era. intros. Z.div_mod_to_equations; lia.
Qed.

Ltac split_ifs :=
  repeat match goal with
         | |- context [if ?c then _ else _] => destruct c eqn:?
         end;
  repeat match goal with
         | H : Z.ltb _ _ = true |- _ => apply Z.ltb_lt in H
         | H : Z.ltb _ _ = false |- _ => apply Z.ltb_ge in H
         | H : Z.leb _ _ = true |- _ => apply Z.leb_le in H
         | H : Z.leb _ _ = false |- _ => apply Z.leb_gt in H
         end.

Lemma era_code_bounds yoe doy :
  0 <= doy <= 365 →
  yoe * 10000 + 301 <= era_code yoe doy <= yoe * 10000 + 10231.
Proof.
  unfold era_code. cbv zeta. intros. split_ifs; Z.div_mod_to_equations; lia.
Qed.

Lemma era_code_mono yoe doy doy' :
  0 <= doy <= doy' → doy' <= 365 → era_code yoe doy <= era_code yoe doy'.
Proof.
  unfold era_code. cbv zeta. intros. split_ifs; Z.div_mod_to_equations; lia.
Qed.

(** A later day has a later date. *)
Lemma civil_from_days_mono a b :
  a <= b → date_code (civil_from_days a) <= date_code (civil_from_days b).
Proof.
  intros Hab. rewrite !date_code_civil.
  set (za := a + 719468). set (zb := b + 719468).
  assert (za <= zb) as Hz by (subst za zb; lia).
  pose proof (Z.mod_pos_bound za 146097 ltac:(lia)) as Ha.
  pose proof (Z.mod_pos_bound zb 146097 ltac:(lia)) as Hb.
  pose proof (Z.div_mod za 146097 ltac:(lia)) as Ea.
  pose proof (Z.div_mod zb 146097 ltac:(lia)) as Eb.
  pose proof (day_of_year_range _ Ha) as Da.
  pose proof (day_of_year_range _ Hb) as Db.
  pose proof (year_of_era_range _ Ha) as Ya.
  pose proof (year_of_era_range _ Hb) as Yb.
  pose proof (era_code_bounds (year_of_era (za mod 146097)) _ Da) as Ba.
  pose proof (era_code_bounds (year_of_era (zb mod 146097)) _ Db) as Bb.
  destruct (Z.eq_dec (za / 146097) (zb / 146097)) as [Eera|Nera].
  - rewrite Eera in *.
    assert (za mod 146097 <= zb mod 146097) as Hdoe by lia.
    pose proof (year_of_era_mono _ _ (conj (proj1 Ha) Hdoe) (proj2 Hb)) as Hy.
    destruct (Z.eq_dec (year_of_era (za mod 146097))
                       (year_of_era (zb mod 146097))) as [Ey|Ny]; [|lia].
    assert (day_of_year (za mod 146097) <= day_of_year (zb mod 146097)) as Hd
      by (unfold day_of_year; rewrite Ey; lia).
    rewrite Ey.
    pose proof (era_code_mono (year_of_era (zb mod 146097)) _ _
                  (conj (proj1 Da) Hd) (proj2 Db)).
    lia.
  - pose proof (Z.div_le_mono za zb 146097 ltac:(lia) Hz). lia.
Qed.

Lemma civil_from_days_range days :
  let '(y, m, d) := civil_from_days days in 1 <= m <= 12 ∧ 1 <= d <= 31.
Proof.
  unfold civil_from_days. cbv zeta.
  set (doe := (days + 719468) mod 146097).
  assert (0 <= doe < 146097) by (apply Z.mod_pos_bound; lia).
  clearbody doe.
  destruct (Z.ltb _ 10) eqn:E;
    [apply Z.ltb_lt in E | apply Z.ltb_ge in E];
    Z.div_mod_to_equations; lia.
Qed.

(** *** Zero-padded numbers compare as the numbers do *)

Lemma all_from_spec n k ok i :
  all_from n k ok = true → k <= i < k + Z.of_nat n → ok i = true.
Proof.
  revert k. induction n as [|n IH]; intros k Hall Hi; [lia|].
  cbn [all_from] in Hall. apply andb_prop in Hall as [Hk Hall].
  destruct (Z.eq_dec i k) as [->|Hne]; [done|].
  apply (IH (k + 1)); [done | lia].
Qed.

Lemma padded_checks :
  all_from (Z.to_nat 10000) 0 (padded_length_ok 4) = true
  ∧ all_from (Z.to_nat 9999) 0 (padded_step_ok 4) = true
  ∧ all_from (Z.to_nat 100) 0 (padded_length_ok 2) = true
  ∧ all_from (Z.to_nat 99) 0 (padded_step_ok 2) = true.
Proof. by vm_compute. Qed.

Lemma zero_padded_lt w (bound : nat) a b :
  all_from bound 0 (padded_step_ok w) = true →
  0 <= a < b → b <= Z.of_nat bound →
  string_lt (zero_padded w a) (zero_padded w b).
Proof.
  intros Hall Hab Hb.
  assert (∀ k : nat, a + 1 + Z.of_nat k <= Z.of_nat bound →
                     string_lt (zero_padded w a)
                               (zero_padded w (a + 1 + Z.of_nat k))) as Hk.
  { induction k as [|k IH]; intros Hbound.
    - replace (a + 1 + Z.of_nat 0) with (a + 1) by lia.
      apply (all_from_spec _ _ _ a Hall). lia.
    - eapply string_lt_trans; [apply IH; lia|].
      replace (a + 1 + Z.of_nat (S k)) with (a + 1 + Z.of_nat k + 1) by lia.
      apply (all_from_spec _ _ _ (a + 1 + Z.of_nat k) Hall). lia. }
  replace b with (a + 1 + Z.of_nat (Z.to_nat (b - a - 1))) by lia.
  apply Hk. lia.
Qed.

Lemma string_compare_append a b s t :
  String.length a = String.length b →
  String.compare (a ++ s) (b ++ t)
  = match String.compare a b with
    | Eq => String.compare s t
    | c => c
    end.
Proof.
  revert b. induction a as [|x a IH]; intros [|y b]; try done.
  change (String x a +:+ s)%string with (String x (a +:+ s)).
  change (String y b +:+ t)%string with (String y (b +:+ t)).
  cbn [String.compare String.length].
  intros [= Hlen]. destruct (Ascii.compare x y); try done. by apply IH.
Qed.

Lemma string_le_append a b s t :
  String.length a = String.length b →
  string_lt a b ∨ (a = b ∧ string_le s t) →
  string_le (a ++ s) (b ++ t).
Proof.
  intros Hlen H. unfold string_le, string_lt, String.leb, String.ltb in *.
  rewrite (string_compare_append a b s t Hlen).
  destruct H as [H|[-> H]].
  - by destruct (String.compare a b).
  - by rewrite string_compare_refl.
Qed.

Lemma year_digits_checks :
  all_from (Z.to_nat 9000) 1000 year_digits_ok = true.
Proof. by vm_compute. Qed.

(** A year from 1000 on fills the four digits. *)
Lemma str_Z_four_digits y : 1000 <= y <= 9999 → str_Z y = zero_padded 4 y.
Proof.
  intros Hy. apply String.eqb_eq.
  apply (all_from_spec _ _ _ y year_digits_checks). lia.
Qed.

(** On valid dates with years of four digits the keys are ordered as the
    dates. *)
Lemma strftime_Ymd_mono y1 m1 d1 y2 m2 d2 :
  1000 <= y1 <= 9999 → 1000 <= y2 <= 9999 →
  1 <= m1 <= 12 → 1 <= m2 <= 12 → 1 <= d1 <= 31 → 1 <= d2 <= 31 →
  date_code (y1, m1, d1) <= date_code (y2, m2, d2) →
  string_le (strftime_Ymd (y1, m1, d1)) (strftime_Ymd (y2, m2, d2)).
Proof.
  intros Hy1 Hy2 Hm1 Hm2 Hd1 Hd2 Hcode. unfold date_code in Hcode.
  destruct padded_checks as (Hlen4 & Hstep4 & Hlen2 & Hstep2).
  assert (∀ y, 0 <= y <= 9999 → String.length (zero_padded 4 y) = 4%nat) as L4.
  { intros y Hy. apply Nat.eqb_eq.
    apply (all_from_spec _ _ _ y Hlen4). lia. }
  assert (∀ n, 0 <= n <= 99 → String.length (zero_padded 2 n) = 2%nat) as L2.
  { intros n Hn. apply Nat.eqb_eq.
    apply (all_from_spec _ _ _ n Hlen2). lia. }
  unfold strftime_Ymd. rewrite !str_Z_four_digits by done.
  apply string_le_append; [rewrite !L4; [done|lia..]|].
  destruct (Z.eq_dec y1 y2) as [->|Hy];
    [right; split; [done|] | left; apply (zero_padded_lt 4 (Z.to_nat 9999)); [done|lia..]].
  apply (string_le_append "-" "-"); [done|]. right. split; [done|].
  apply string_le_append; [rewrite !L2; [done|lia..]|].
  destruct (Z.eq_dec m1 m2) as [->|Hm];
    [right; split; [done|] | left; apply (zero_padded_lt 2 (Z.to_nat 99)); [done|lia..]].
  apply (string_le_append "-" "-"); [done|]. right. split; [done|].
  destruct (Z.eq_dec d1 d2) as [->|Hd]; [reflexivity|].
  apply string_le_lt_or_eq. left. apply (zero_padded_lt 2 (Z.to_nat 99)); [done|lia..].
Qed.
End CalendarOrder.

(* ===================================================================== *)
(** ** The observation table                                             *)
(* ===================================================================== *)

Lemma rows_down_add n m y : rows_down (n + m) y = rows_down m (rows_down n y).
Proof. revert y. induction n as [|n IH]; intros y; simpl; auto. Qed.

Lemma row_writes self session_num session_records y t :
  writes (draw_timing_row self session_num session_records y t)
         (y - row_height)%float
         (row_ops self session_num session_records y t).
Proof.
  unfold draw_timing_row, row_ops, applicable_text, displayed_actions,
    timing_text, timing_records.
  do 4 writes_step.
  destruct (filter _ session_records) as [|r rs] eqn:E.
  - repeat writes_step.
  - destruct (foldl append_action [] (r :: rs)); repeat writes_step.
Qed.

Lemma rows_writes self session_num session_records ts y :
  writes (for_fold ts y (draw_timing_row self session_num session_records))
         (rows_down (length ts) y)
         (rows_ops self session_num session_records y ts).
Proof.
  revert y. induction ts as [|t ts IH]; intros y;
    cbn [for_fold rows_ops length rows_down].
  - apply writes_ret.
  - eapply writes_bind; [apply row_writes | apply IH].
Qed.

Section Grouping.
Variable utcoffset : Z → Z.

Lemma dated_key_of r : dated utcoffset r → date_key utcoffset r = OK (key_of utcoffset r).
Proof. intros [k Hk]. unfold key_of. by rewrite Hk. Qed.

Lemma group_step_writes m r :
  dated utcoffset r →
  ∃ m', writes (group_step utcoffset m r) m' []
        ∧ ∀ k, m' !! k = if decide (key_of utcoffset r = k)
                         then Some (default [] (m !! k) ++ [r])
                         else m !! k.
Proof.
  intros Hr%dated_key_of. unfold group_step.
  eexists. split.
  - intros c. unfold bind, lift, ret. rewrite Hr. by rewrite app_nil_r.
  - intros k. destruct (decide (key_of utcoffset r = k)) as [<-|Hne].
    + destruct (m !! key_of utcoffset r) as [l|] eqn:E.
      * by rewrite lookup_alter_eq, E.
      * by rewrite lookup_alter_eq, lookup_insert_eq.
    + rewrite lookup_alter_ne by done.
      destruct (m !! key_of utcoffset r); [done|]. by rewrite lookup_insert_ne.
Qed.

Lemma group_loop_writes records m :
  Forall (dated utcoffset) records →
  ∃ m', writes (for_fold records m (group_step utcoffset)) m' []
        ∧ ∀ k, m' !! k = extend_group (m !! k) (day_group utcoffset records k).
Proof.
  intros H. revert m. induction H as [|r records Hr _ IH]; intros m.
  - exists m. split; [apply writes_ret|].
    intros k. unfold extend_group, day_group. cbn [filter list_filter].
    destruct (m !! k); by rewrite ?app_nil_r.
  - destruct (group_step_writes m r Hr) as (m1 & Hstep & Hm1).
    destruct (IH m1) as (m' & Hloop & Hm').
    exists m'. split.
    + cbn [for_fold]. apply (writes_bind _ _ m1 m' [] []); done.
    + intros k. rewrite Hm', Hm1. unfold day_group.
      rewrite filter_cons. destruct (decide (key_of utcoffset r = k)) as [Hk|Hk].
      * unfold extend_group. destruct (m !! k); cbn [default];
          by rewrite <- ?(assoc_L (++)).
      * done.
Qed.

Lemma grouped_lookup records (m : gmap string (list ObservationRecord)) :
  (∀ k, m !! k = extend_group None (day_group utcoffset records k)) →
  dom m = distinct_days utcoffset records
  ∧ ∀ k, k ∈ distinct_days utcoffset records → m !! k = Some (day_group utcoffset records k).
Proof.
  intros Hm.
  assert (Hin : ∀ k, k ∈ distinct_days utcoffset records ↔ day_group utcoffset records k ≠ []).
  { intros k. unfold distinct_days, day_group.
    rewrite elem_of_list_to_set, list_elem_of_fmap. split.
    - intros (r & -> & Hr) Hnil.
      assert (r ∈ filter (fun r' => key_of utcoffset r' = key_of utcoffset r) records) as Hf
        by (by apply list_elem_of_filter).
      rewrite Hnil in Hf. by apply elem_of_nil in Hf.
    - destruct (filter _ records) as [|r l] eqn:E; [done|]. intros _.
      assert (r ∈ filter (fun r' => key_of utcoffset r' = k) records) as Hf
        by (rewrite E; left).
      apply list_elem_of_filter in Hf as [Hk Hr]. eauto. }
  split.
  - apply set_eq. intros k. rewrite elem_of_dom, Hin, Hm.
    unfold extend_group. destruct (day_group utcoffset records k); split; done.
  - intros k Hk%Hin. rewrite Hm. unfold extend_group.
    by destruct (day_group utcoffset records k).
Qed.

Lemma session_writes self m y n k session_records :
  m !! k = Some session_records →
  writes (draw_session self m (y, n) k) (rows_down 5 y, (n + 1)%nat)
         (rows_ops self (n + 1) session_records y timing_range).
Proof.
  intros Hk. unfold draw_session. rewrite Hk.
  apply (writes_map _ (fun y => (y, (n + 1)%nat)) (rows_down 5 y)).
  apply (rows_writes self (n + 1) session_records timing_range y).
Qed.

Lemma sessions_writes self m ks y n :
  (∀ k, k ∈ ks → is_Some (m !! k)) →
  writes (for_fold ks (y, n) (draw_session self m))
         (rows_down (5 * length ks) y, (n + length ks)%nat)
         (sessions_ops self n (map (fun k => default [] (m !! k)) ks) y).
Proof.
  revert y n. induction ks as [|k ks IH]; intros y n Hks.
  - cbn [for_fold length map sessions_ops]. rewrite Nat.mul_0_r, Nat.add_0_r.
    apply writes_ret.
  - cbn [for_fold length map sessions_ops].
    destruct (Hks k) as [session_records Hk]; [left|]. rewrite Hk.
    replace (5 * S (length ks))%nat with (5 + 5 * length ks)%nat by lia.
    rewrite rows_down_add.
    replace (n + S (length ks))%nat with (n + 1 + length ks)%nat by lia.
    eapply writes_bind; [by apply session_writes|].
    apply IH. intros k' Hk'. apply Hks. by right.
Qed.

Lemma table_writes self records y_start :
  Forall (dated utcoffset) records →
  writes (_draw_observation_table utcoffset self records y_start)
         (rows_down (1 + 5 * length (session_days utcoffset records))
                    (y_start - 10 * mm)%float)
         (table_head_ops self y_start
            ++ sessions_ops self 0
                 (map (day_group utcoffset records) (session_days utcoffset records))
                 (y_start - 10 * mm - row_height)%float).
Proof.
  intros Hdated. unfold _draw_observation_table, table_head_ops.
  do 4 writes_step.
  unfold table_headers, enumerate.
  cbn [length seq zip zip_with for_each].
  cbv beta iota.
  eapply (writes_bind _ _ tt _ [_; _; _; _]); [repeat writes_step|].
  cbn [app].
  destruct (group_loop_writes records ∅ Hdated) as (m & Hgroup & Hm).
  apply (writes_bind _ _ m _ [] _ Hgroup).
  destruct (grouped_lookup records m) as [Hdom Hlookup].
  { intros k. by rewrite Hm, lookup_empty. }
  assert (Hdays : take 8 (sorted_keys m) = session_days utcoffset records).
  { unfold sorted_keys, session_days. by rewrite Hdom. }
  rewrite Hdays.
  assert (Hin : ∀ k, k ∈ session_days utcoffset records → k ∈ distinct_days utcoffset records).
  { intros k Hk. unfold session_days in Hk.
    apply subseteq_take in Hk.
    rewrite merge_sort_Permutation in Hk. by apply elem_of_elements in Hk. }
  assert (Hgroups : map (fun k => default [] (m !! k)) (session_days utcoffset records)
                    = map (day_group utcoffset records) (session_days utcoffset records)).
  { apply map_ext_in. intros k Hk%list_elem_of_In.
    by rewrite (Hlookup k (Hin k Hk)). }
  rewrite <- Hgroups.
  apply (writes_map _ fst
           (rows_down (5 * length (session_days utcoffset records))
                      (y_start - 10 * mm - row_height)%float,
            (0 + length (session_days utcoffset records))%nat)).
  apply sessions_writes. intros k Hk. rewrite (Hlookup k (Hin k Hk)). eauto.
Qed.

(** A record whose timestamp [datetime] cannot convert makes the table
    raise, whatever the other records are. *)
Lemma bind_raises {A B} (m : M A) (k : A → M B) a ops e :
  writes m a ops → (∀ c, k a c = Raise e) → ∀ c, bind m k c = Raise e.
Proof. intros Hm Hk c. unfold bind. by rewrite Hm, Hk. Qed.

Lemma group_loop_raises pre r post m e :
  Forall (dated utcoffset) pre → date_key utcoffset r = Raise e →
  ∀ c, for_fold (pre ++ r :: post) m (group_step utcoffset) c = Raise e.
Proof.
  intros Hpre Hr. revert m.
  induction Hpre as [|r0 pre Hr0 _ IH]; intros m c; cbn [app for_fold].
  - unfold bind at 1, group_step, bind, lift. by rewrite Hr.
  - destruct (group_step_writes m r0 Hr0) as (m1 & Hstep & _).
    by apply (bind_raises _ _ m1 [] e Hstep).
Qed.

Lemma table_raises self pre r post y_start e :
  Forall (dated utcoffset) pre → date_key utcoffset r = Raise e →
  ∀ c, _draw_observation_table utcoffset self (pre ++ r :: post) y_start c
       = Raise e.
Proof.
  intros Hpre Hr. unfold _draw_observation_table. cbv zeta.
  do 4 (eapply bind_raises; [apply writes_draw|]).
  eapply (bind_raises _ _ tt [_; _; _; _]).
  { unfold table_headers, enumerate. cbn [length seq zip zip_with for_each].
    repeat writes_step. }
  intros c. unfold bind at 1.
  by rewrite (group_loop_raises pre r post ∅ e Hpre Hr).
Qed.

(** *** The retained days *)

Lemma sorted_days_sorted records :
  StronglySorted string_le
    (merge_sort string_le (elements (distinct_days utcoffset records))).
Proof. apply (StronglySorted_merge_sort string_le). Qed.

Lemma sorted_days_NoDup records :
  NoDup (merge_sort string_le (elements (distinct_days utcoffset records))).
Proof. rewrite merge_sort_Permutation. apply NoDup_elements. Qed.

Lemma session_days_length records :
  length (session_days utcoffset records) = min (size (distinct_days utcoffset records)) 8.
Proof.
  unfold session_days. rewrite length_take, merge_sort_Permutation.
  unfold size, set_size, compose. lia.
Qed.

Lemma session_days_distinct records k :
  k ∈ session_days utcoffset records → k ∈ distinct_days utcoffset records.
Proof.
  intros Hk%subseteq_take. rewrite merge_sort_Permutation in Hk.
  by apply elem_of_elements in Hk.
Qed.

Lemma session_days_NoDup records : NoDup (session_days utcoffset records).
Proof.
  unfold session_days.
  pose proof (sorted_days_NoDup records) as H.
  rewrite <- (take_drop 8 (merge_sort string_le _)) in H.
  by apply NoDup_app in H as [? _].
Qed.

Lemma session_days_le_sorted records :
  StronglySorted string_le (session_days utcoffset records).
Proof. apply StronglySorted_take, sorted_days_sorted. Qed.

Lemma StronglySorted_strict (l : list string) :
  StronglySorted string_le l → NoDup l → StronglySorted string_lt l.
Proof.
  induction 1 as [|x l Hl IH Hx]; intros Hnd; constructor.
  - apply IH. by apply NoDup_cons in Hnd as [_ ?].
  - apply NoDup_cons in Hnd as [Hx' _].
    apply Forall_forall. intros y Hy.
    apply string_le_neq_lt; [by apply (proj1 (Forall_forall _ _) Hx)|].
    by intros ->.
Qed.

Lemma session_days_sorted records :
  StronglySorted string_lt (session_days utcoffset records).
Proof.
  apply StronglySorted_strict;
    [apply session_days_le_sorted | apply session_days_NoDup].
Qed.

(** A day that is not retained is later than every retained day. *)
Lemma session_days_earliest records k k' :
  k ∈ distinct_days utcoffset records → k ∉ session_days utcoffset records →
  k' ∈ session_days utcoffset records → string_lt k' k.
Proof.
  intros Hk Hout Hin. unfold session_days in *.
  set (l := merge_sort string_le (elements (distinct_days utcoffset records))) in *.
  assert (k ∈ l) as Hl
    by (subst l; rewrite merge_sort_Permutation; by apply elem_of_elements).
  rewrite <- (take_drop 8 l) in Hl. apply elem_of_app in Hl as [?|Hdrop]; [done|].
  apply string_le_neq_lt.
  - eapply (StronglySorted_take_before string_le 8 l); eauto.
    apply sorted_days_sorted.
  - intros ->. done.
Qed.

Lemma session_days_retained records :
  session_days utcoffset (filter (fun r => key_of utcoffset r ∈ session_days utcoffset records) records)
  = session_days utcoffset records.
Proof.
  set (days := session_days utcoffset records).
  assert (Hset : distinct_days utcoffset (filter (fun r => key_of utcoffset r ∈ days) records)
                 = list_to_set days).
  { apply set_eq. intros k. unfold distinct_days.
    rewrite !elem_of_list_to_set, list_elem_of_fmap. split.
    - intros (r & -> & [Hr _]%list_elem_of_filter). done.
    - intros Hk. pose proof (session_days_distinct records k Hk) as Hd.
      unfold distinct_days in Hd.
      apply elem_of_list_to_set, list_elem_of_fmap in Hd as (r & -> & Hr).
      exists r. split; [done|]. by apply list_elem_of_filter. }
  unfold session_days at 1. rewrite Hset.
  assert (merge_sort string_le (elements (list_to_set days : gset string))
          = days) as ->.
  { apply (StronglySorted_unique string_le).
    - apply (StronglySorted_merge_sort string_le).
    - apply session_days_le_sorted.
    - rewrite merge_sort_Permutation.
      apply elements_list_to_set, session_days_NoDup. }
  apply take_ge. subst days. rewrite session_days_length. lia.
Qed.

Lemma day_group_retained records k :
  k ∈ session_days utcoffset records →
  day_group utcoffset (filter (fun r => key_of utcoffset r ∈ session_days utcoffset records) records) k
  = day_group utcoffset records k.
Proof.
  intros Hk. unfold day_group. rewrite list_filter_filter.
  apply list_filter_iff. intros r. split; [by intros [? ?]|].
  intros Hr. split; [done|]. by rewrite Hr.
Qed.

(** The session blocks, indexed: session [i] (from 0) has number [i + 1]
    and starts [5 * i] rows below the first. *)
Lemma sessions_ops_indexed self n (g : string → list ObservationRecord) ks y :
  sessions_ops self n (map g ks) y
  = concat (imap (fun i k => rows_ops self (n + i + 1) (g k)
                                      (rows_down (5 * i) y) timing_range) ks).
Proof.
  revert n y. induction ks as [|k ks IH]; intros n y; [done|].
  cbn [map sessions_ops]. rewrite imap_cons, concat_cons, IH.
  rewrite Nat.add_0_r, Nat.mul_0_r. cbn [rows_down]. f_equal. f_equal.
  apply imap_ext. intros i k' _. cbn [compose].
  replace (5 * S i)%nat with (5 + 5 * i)%nat by lia.
  rewrite rows_down_add. f_equal. lia.
Qed.
End Grouping.

Section Chronology.
Variable utcoffset : Z → Z.

Lemma local_date_OK t y m d :
  local_date utcoffset t = OK (y, m, d) →
  civil_from_days ((t + utcoffset t) / 86400) = (y, m, d) ∧ (1 ≤ y ≤ 9999)%Z.
Proof.
  unfold local_date, localtime_date.
  destruct (civil_from_days _) as [[y' m'] d'].
  destruct ((- 2 ^ 31 <=? y' - 1900) && (y' - 1900 <? 2 ^ 31))%Z; [|done].
  cbn [rbind].
  destruct (1 <=? y')%Z eqn:E1; [|done].
  destruct (y' <=? 9999)%Z eqn:E2; [|done].
  cbn [andb]. intros [= <- <- <-]. split; [done|]. lia.
Qed.

Lemma fromtimestamp_date_OK ms y m d :
  fromtimestamp_date utcoffset ms = OK (y, m, d) →
  ∃ t, time_t_of_ms ms = OK t ∧ local_date utcoffset t = OK (y, m, d).
Proof.
  unfold fromtimestamp_date.
  destruct (time_t_of_ms ms) as [t|]; [|done]. cbn [rbind].
  destruct (local_date utcoffset t) as [date|] eqn:E; [|done]. cbn [rbind].
  destruct (local_date utcoffset (t - 86400)); [|done]. cbn [rbind].
  match goal with |- rbind ?x _ = _ → _ => destruct x; [|done] end.
  cbn [rbind]. intros [= ->]. eauto.
Qed.

Lemma dated_key_civil r :
  dated utcoffset r →
  key_of utcoffset r = strftime_Ymd (civil_from_days (local_day utcoffset r))
  ∧ (1 ≤ (civil_from_days (local_day utcoffset r)).1.1 ≤ 9999)%Z.
Proof.
  intros [k Hk]. unfold key_of. rewrite Hk. unfold date_key in Hk.
  destruct (fromtimestamp_date utcoffset _) as [[[y m] d]|] eqn:Hd; [|done].
  cbn [rbind] in Hk. injection Hk as <-.
  apply fromtimestamp_date_OK in Hd as (t & Ht & Hd).
  apply local_date_OK in Hd as [Hc Hy].
  unfold local_day. rewrite Ht, Hc. split; [done|]. cbn. lia.
Qed.

Lemma four_digit_year_dated r :
  four_digit_year utcoffset r → dated utcoffset r.
Proof.
  intros (y & m & d & Hd & _). unfold dated, date_key. rewrite Hd. by eexists.
Qed.

Lemma four_digit_year_civil r :
  four_digit_year utcoffset r →
  (1000 ≤ (civil_from_days (local_day utcoffset r)).1.1 ≤ 9999)%Z.
Proof.
  intros (y & m & d & Hd & Hy).
  apply fromtimestamp_date_OK in Hd as (t & Ht & Hd).
  apply local_date_OK in Hd as [Hc Hrange].
  unfold local_day. rewrite Ht, Hc. cbn. lia.
Qed.

(** Among years of four digits the order of the date keys is the order of
    the local days. *)
Lemma key_of_mono r r' :
  four_digit_year utcoffset r → four_digit_year utcoffset r' →
  (local_day utcoffset r ≤ local_day utcoffset r')%Z →
  string_le (key_of utcoffset r) (key_of utcoffset r').
Proof.
  intros Hr Hr' Hle.
  pose proof (four_digit_year_civil r Hr) as Hy.
  pose proof (four_digit_year_civil r' Hr') as Hy'.
  apply four_digit_year_dated, dated_key_civil in Hr as [-> _].
  apply four_digit_year_dated, dated_key_civil in Hr' as [-> _].
  apply civil_from_days_mono in Hle.
  pose proof (civil_from_days_range (local_day utcoffset r)) as Hm.
  pose proof (civil_from_days_range (local_day utcoffset r')) as Hm'.
  destruct (civil_from_days (local_day utcoffset r)) as [[y m] d].
  destruct (civil_from_days (local_day utcoffset r')) as [[y' m'] d'].
  cbn in Hy, Hy'. apply strftime_Ymd_mono; lia.
Qed.

Lemma key_lt_day_lt r r' :
  four_digit_year utcoffset r → four_digit_year utcoffset r' →
  string_lt (key_of utcoffset r) (key_of utcoffset r') →
  (local_day utcoffset r < local_day utcoffset r')%Z.
Proof.
  intros Hr Hr' Hlt.
  destruct (Z.lt_ge_cases (local_day utcoffset r) (local_day utcoffset r')) as [?|Hge]; [done|].
  apply (key_of_mono r' r Hr' Hr) in Hge.
  apply string_le_lt_or_eq in Hge as [Hgt|Heq].
  - destruct (string_lt_irrefl (key_of utcoffset r)).
    by eapply string_lt_trans.
  - rewrite Heq in Hlt. by destruct (string_lt_irrefl (key_of utcoffset r)).
Qed.
End Chronology.

(* ===================================================================== *)
(** ** The cells of a data row                                           *)
(* ===================================================================== *)

Lemma append_action_glyph actions r :
  append_action actions r
  = actions ++ match checked_glyph r with Some g => [g] | None => [] end.
Proof.
  unfold append_action, checked_glyph.
  destruct (action r) as [a|]; cbn [default from_option id].
  - destruct (String.eqb_spec a "hand_sanitizer") as [->|H1]; [done|].
    rewrite (decide_False (P := a = _)) by done.
    destruct (String.eqb_spec a "hand_wash") as [->|H2]; [done|].
    rewrite (decide_False (P := a = _)) by done.
    destruct (String.eqb_spec a "no_action") as [->|H3]; [done|].
    rewrite (decide_False (P := a = _)) by done.
    by rewrite app_nil_r.
  - by rewrite app_nil_r.
Qed.

Lemma collect_actions_omap actions l :
  foldl append_action actions l = actions ++ omap checked_glyph l.
Proof.
  revert actions. induction l as [|r l IH]; intros actions; cbn [foldl].
  - by rewrite app_nil_r.
  - rewrite IH, append_action_glyph, <- (assoc_L (++)). f_equal.
    change (omap checked_glyph (r :: l))
      with (match checked_glyph r with
            | Some g => g :: omap checked_glyph l
            | None => omap checked_glyph l
            end).
    by destruct (checked_glyph r).
Qed.


(** The glyphs shown in the third column are the first two of the glyph
    list that the loop body assembles. *)
Lemma displayed_actions_known session_records t :
  omap checked_glyph (timing_records session_records t) ≠ [] →
  displayed_actions session_records t
  = take 2 (omap checked_glyph (timing_records session_records t)).
Proof.
  intros Hne. unfold displayed_actions.
  rewrite collect_actions_omap. cbn [app].
  by destruct (omap checked_glyph _).
Qed.

Lemma displayed_actions_unknown session_records t :
  omap checked_glyph (timing_records session_records t) = [] →
  displayed_actions session_records t = ["☐手指消毒"; "☐手洗い"]%string.
Proof.
  intros Hnil. unfold displayed_actions.
  by rewrite collect_actions_omap, Hnil.
Qed.

Lemma omap_checked_nonempty session_records t :
  (∃ r, r ∈ session_records ∧ timing r = Some t ∧ is_Some (checked_glyph r))
  ↔ omap checked_glyph (timing_records session_records t) ≠ [].
Proof.
  split.
  - intros (r & Hr & Ht & g & Hg) Hnil.
    assert (g ∈ omap checked_glyph (timing_records session_records t)) as Hin.
    { apply list_elem_of_omap. exists r. split; [|done].
      by apply list_elem_of_filter. }
    rewrite Hnil in Hin. by apply elem_of_nil in Hin.
  - destruct (omap _ _) as [|g l] eqn:E; [done|]. intros _.
    assert (g ∈ omap checked_glyph (timing_records session_records t)) as Hin
      by (rewrite E; left).
    apply list_elem_of_omap in Hin as (r & [Ht Hr]%list_elem_of_filter & Hg).
    exists r. eauto.
Qed.

(** Counterexample to C3 as stated: two records of one bucket that carry
    the same action kind give two checked glyphs of that kind; the list is
    not deduplicated. *)
Lemma repeated_action_drawn_twice :
  let group := [sanitizer_at_1; sanitizer_at_1] in
  let self := ObservationFormPDF_init "form.pdf" in
  emitted (draw_timing_row self 1 group 700 1)
    = Some (row_ops self 1 group 700 1)
  ∧ row_ops self 1 group 700 1 !! 5%nat
    = Some (DrawString (margin self + 2 * col_width self + 2 * mm)
                       (700 - row_height + 2 * mm)
                       "☑手指消毒 ☑手指消毒")%float
  ∧ displayed_actions group 1 = ["☑手指消毒"; "☑手指消毒"]%string
  ∧ spec_displayed_actions group 1 = ["☑手指消毒"]%string
  ∧ displayed_actions group 1 ≠ spec_displayed_actions group 1.
Proof.
  split; [apply (writes_emitted _ _ _ (row_writes _ _ _ _ _))|].
  repeat split; try reflexivity. by vm_compute.
Qed.

(** C3 (amended): in a row with at least one record that carries a known
    action, the third column shows the checked glyphs of the first two such
    records of the bucket, in record order; a kind carried by several
    records is repeated, one glyph per record. *)
Theorem displayed_actions_first_two self session_num session_records y t c :
  (∃ r, r ∈ session_records ∧ timing r = Some t ∧ is_Some (checked_glyph r)) →
  let glyphs :=
    take 2 (omap checked_glyph
              (filter (fun r => timing r = Some t) session_records)) in
  draw_timing_row self session_num session_records y t c
    = OK ((y - row_height)%float,
          c ++ row_ops self session_num session_records y t)
  ∧ row_ops self session_num session_records y t !! 5%nat
    = Some (DrawString (margin self + 2 * col_width self + 2 * mm)
                       (y - row_height + 2 * mm)
                       (join_space glyphs))%float
  ∧ glyphs ≠ []
  ∧ (∀ g, g ∈ glyphs →
          ∃ r, r ∈ session_records ∧ timing r = Some t
               ∧ checked_glyph r = Some g).
Proof.
  intros Hsome%omap_checked_nonempty glyphs.
  split; [apply row_writes|]. split; [|split].
  - cbn [row_ops lookup list_lookup]. by rewrite displayed_actions_known.
  - subst glyphs. fold (timing_records session_records t).
    by destruct (omap checked_glyph _) as [|? [|? ?]].
  - intros g Hg%subseteq_take.
    apply list_elem_of_omap in Hg as (r & [Ht Hr]%list_elem_of_filter & Hg).
    eauto.
Qed.

Lemma displayed_actions_first_two_witness :
  draw_timing_row (ObservationFormPDF_init "form.pdf") 1
      [sanitizer_at_1; sanitizer_at_1] 700 1 []
    = OK ((700 - row_height)%float,
          [] ++ row_ops (ObservationFormPDF_init "form.pdf") 1
                  [sanitizer_at_1; sanitizer_at_1] 700 1).
Proof.
  refine (proj1 (displayed_actions_first_two _ 1
                   [sanitizer_at_1; sanitizer_at_1] _ 1%Z [] _)).
  exists sanitizer_at_1. split; [left|]. split; [reflexivity|].
  by eexists.
Defined.

(** C2: a (session group, timing) pair without any record: the loop body
    builds the list of the three unchecked glyphs, and the call that draws
    the third column receives only the first two of them. *)
Example unchecked_row_shows_two_glyphs :
  let group := [sanitizer_at_1] in
  let self := ObservationFormPDF_init "form.pdf" in
  timing_records group 2 = []
  ∧ emitted (draw_timing_row self 1 group 700 2)
    = Some (row_ops self 1 group 700 2)
  ∧ row_ops self 1 group 700 2 !! 5%nat
    = Some (DrawString (margin self + 2 * col_width self + 2 * mm)
                       (700 - row_height + 2 * mm)
                       "☐手指消毒 ☐手洗い")%float
  ∧ displayed_actions group 2 = ["☐手指消毒"; "☐手洗い"]%string.
Proof.
  split; [reflexivity|].
  split; [apply (writes_emitted _ _ _ (row_writes _ _ _ _ _))|].
  split; reflexivity.
Qed.

(* ===================================================================== *)
(** ** Sessions: which days are drawn                                    *)
(* ===================================================================== *)

Lemma table_writes_indexed utcoffset self records y_start :
  Forall (dated utcoffset) records →
  writes (_draw_observation_table utcoffset self records y_start)
         (rows_down (1 + 5 * length (session_days utcoffset records))
                    (y_start - 10 * mm)%float)
         (table_head_ops self y_start
            ++ data_rows_ops self (day_group utcoffset records)
                 (session_days utcoffset records) y_start).
Proof.
  intros H. unfold data_rows_ops.
  rewrite <- (sessions_ops_indexed self 0). by apply table_writes.
Qed.

(** C1 (amended): the table draws one session per distinct date key, at
    most eight: the days are the first eight date keys in ascending order
    of the strings, each day not drawn has a later key than every day
    drawn, session numbers count from 1 in that order, and the records of
    the days not drawn have no effect on the output; no error is raised.
    Among records of the years 1000 to 9999 the order of the keys is the
    order of the calendar: there a day not drawn is a later local day than
    every day drawn. *)
Theorem session_groups_earliest_eight utcoffset self records y_start c :
  Forall (dated utcoffset) records →
  let days := session_days utcoffset records in
  length days = min (size (distinct_days utcoffset records)) 8
  ∧ StronglySorted string_lt days
  ∧ (∀ k, k ∈ days → k ∈ distinct_days utcoffset records)
  ∧ (∀ k k', k ∈ distinct_days utcoffset records → k ∉ days → k' ∈ days →
             string_lt k' k)
  ∧ (∀ r r', r ∈ records → r' ∈ records →
             four_digit_year utcoffset r → four_digit_year utcoffset r' →
             key_of utcoffset r ∈ days → key_of utcoffset r' ∉ days →
             (local_day utcoffset r < local_day utcoffset r')%Z)
  ∧ _draw_observation_table utcoffset self records y_start c
    = OK (rows_down (1 + 5 * length days) (y_start - 10 * mm)%float,
          c ++ table_head_ops self y_start
            ++ data_rows_ops self (day_group utcoffset records) days y_start)
  ∧ _draw_observation_table utcoffset self
      (filter (fun r => key_of utcoffset r ∈ days) records) y_start c
    = _draw_observation_table utcoffset self records y_start c.
Proof.
  intros Hdated days. subst days.
  split; [apply session_days_length|].
  split; [apply session_days_sorted|].
  split; [apply session_days_distinct|].
  split; [apply session_days_earliest|].
  split.
  { intros r r' Hr Hr' H4 H4' Hin Hout.
    apply key_lt_day_lt; try done.
    apply (session_days_earliest utcoffset records); try done.
    apply elem_of_list_to_set, list_elem_of_fmap. eauto. }
  split; [by apply table_writes_indexed|].
  rewrite (table_writes_indexed utcoffset self records y_start Hdated c).
  rewrite (table_writes_indexed utcoffset self _ y_start); cycle 1.
  { apply Forall_forall. intros r [_ Hr]%list_elem_of_filter.
    by apply (proj1 (Forall_forall _ _) Hdated). }
  rewrite (session_days_retained utcoffset records).
  do 3 f_equal. unfold data_rows_ops. do 2 f_equal.
  apply imap_ext. intros i k Hk. f_equal.
  apply day_group_retained. by apply list_elem_of_lookup_2 in Hk.
Qed.

Lemma Forall_dated utcoffset records :
  forallb (datedb utcoffset) records = true → Forall (dated utcoffset) records.
Proof.
  intros H. apply Forall_forall. intros r Hr%list_elem_of_In.
  apply (proj1 (forallb_forall _ _) H) in Hr. unfold datedb, dated in *.
  destruct (date_key utcoffset r); [eauto | done].
Qed.

Example far_future_timestamp_raises :
  _draw_observation_table utc (ObservationFormPDF_init "form.pdf")
      [record_on_day 0; far_future] 700 []
  = Raise (ValueError "year 55970 is out of range").
Proof.
  apply (table_raises utc _ [record_on_day 0] far_future []).
  - apply Forall_dated. vm_compute. reflexivity.
  - reflexivity.
Qed.

(** The first local day of the year 1 cannot be converted: [datetime]
    also reads the local time one day earlier, in the year 0. *)
Example first_day_of_year_1_raises :
  date_key utc first_day_of_year_1
  = Raise (ValueError "year 0 is out of range").
Proof. reflexivity. Qed.

Example nine_days_sessions :
  session_days jst nine_days
  = [ "2024-01-01"; "2024-01-02"; "2024-01-03"; "2024-01-04";
      "2024-01-05"; "2024-01-06"; "2024-01-07"; "2024-01-08" ]%string.
Proof. by vm_compute. Qed.

Lemma session_groups_earliest_eight_witness :
  length (session_days jst nine_days)
  = min (size (distinct_days jst nine_days)) 8.
Proof.
  refine (proj1 (session_groups_earliest_eight jst
                   (ObservationFormPDF_init "form.pdf") nine_days 700 [] _)).
  apply Forall_dated. vm_compute. reflexivity.
Defined.

(** Counterexample to C1 as stated: a day of the year 999 has the key
    ["999-12-31"], which sorts after the keys of 2024.  With eight days of
    2024 the table draws those eight, and the earliest day of all, a day
    that [datetime] converts without error, is the one left out: the
    output is that of the eight days alone. *)
Lemma year_999_day_dropped :
  let self := ObservationFormPDF_init "form.pdf" in
  let records := eight_days ++ [year_999] in
  date_key utc year_999 = OK "999-12-31"%string
  ∧ forallb (datedb utc) records = true
  ∧ session_days utc records
    = [ "2024-01-01"; "2024-01-02"; "2024-01-03"; "2024-01-04";
        "2024-01-05"; "2024-01-06"; "2024-01-07"; "2024-01-08" ]%string
  ∧ forallb (fun r => (local_day utc year_999 <? local_day utc r)%Z)
            eight_days = true
  ∧ _draw_observation_table utc self records 700 []
    = _draw_observation_table utc self eight_days 700 [].
Proof.
  intros self records.
  split; [by vm_compute|]. split; [by vm_compute|].
  split; [by vm_compute|]. split; [by vm_compute|].
  vm_compute. reflexivity.
Qed.

(* ===================================================================== *)
(** ** The row cursor                                                    *)
(* ===================================================================== *)

Lemma filled_rects_app ops1 ops2 :
  filled_rects (ops1 ++ ops2) = filled_rects ops1 + filled_rects ops2.
Proof.
  induction ops1 as [|op ops1 IH]; [done|].
  cbn [app filled_rects]. rewrite IH. by destruct op as [| | | | | | |? ? ? ? []].
Qed.

Lemma filled_rects_rows self n g y ts :
  filled_rects (rows_ops self n g y ts) = length ts.
Proof.
  revert y. induction ts as [|t ts IH]; intros y; [done|].
  cbn [rows_ops length]. rewrite filled_rects_app, IH. done.
Qed.

Lemma filled_rects_sessions self n groups y :
  filled_rects (sessions_ops self n groups y) = 5 * length groups.
Proof.
  revert n y. induction groups as [|g groups IH]; intros n y; [done|].
  cbn [sessions_ops length].
  rewrite filled_rects_app, filled_rects_rows, IH. cbn [timing_range length]. lia.
Qed.

(** Counterexample to C5 as stated: with no record, hence no session, the
    returned cursor is not the start cursor minus one row height; the table
    starts 10 mm below the start cursor. *)
Lemma empty_table_cursor :
  let self := ObservationFormPDF_init "form.pdf" in
  session_days utc [] = []
  ∧ _draw_observation_table utc self [] 700 []
    = OK ((700 - 10 * mm - row_height)%float, table_head_ops self 700)
  ∧ (700 - 10 * mm - row_height)%float ≠ spec_table_cursor 700 0
  ∧ (700 - 10 * mm - row_height)%float ≠ (700 - row_height)%float.
Proof.
  split; [reflexivity|]. split; [reflexivity|].
  split; intros H;
    apply (f_equal (fun y => PrimFloat.ltb y (700 - row_height)%float)) in H;
    vm_compute in H; discriminate.
Qed.

(** C5 (amended): the table starts 10 mm below the start cursor; from
    there the cursor goes down by one row height per row drawn, the header
    row and five rows per session; without a session only the header row is
    drawn and the result is the start cursor minus 10 mm minus one row
    height. *)
Theorem table_cursor_rows utcoffset self records y_start c :
  Forall (dated utcoffset) records →
  let n := length (session_days utcoffset records) in
  ∃ ops,
    _draw_observation_table utcoffset self records y_start c
      = OK (rows_down (1 + 5 * n) (y_start - 10 * mm)%float, c ++ ops)
    ∧ filled_rects ops = 1 + 5 * n
    ∧ (n = 0 →
       ops = table_head_ops self y_start
       ∧ rows_down (1 + 5 * n) (y_start - 10 * mm)%float
         = (y_start - 10 * mm - row_height)%float).
Proof.
  intros Hdated n. eexists. split; [by apply table_writes|]. split.
  - rewrite filled_rects_app, filled_rects_sessions, length_map. done.
  - intros Hn. subst n.
    destruct (session_days utcoffset records); [|done].
    split; [apply app_nil_r | reflexivity].
Qed.

Lemma table_cursor_rows_witness :
  ∃ ops,
    _draw_observation_table jst (ObservationFormPDF_init "form.pdf")
        nine_days 700 []
      = OK (rows_down (1 + 5 * 8) (700 - 10 * mm)%float, [] ++ ops)
    ∧ filled_rects ops = 1 + 5 * 8.
Proof.
  destruct (table_cursor_rows jst (ObservationFormPDF_init "form.pdf")
              nine_days 700 []) as (ops & Hrun & Hrows & _).
  { apply Forall_dated. vm_compute. reflexivity. }
  exists ops. rewrite nine_days_sessions in Hrun, Hrows. by split.
Defined.

(* ===================================================================== *)
(** ** Records that match no timing                                      *)
(* ===================================================================== *)

Lemma row_ops_blank self n g y t :
  timing_records g t = [] → row_ops self n g y t = blank_row_ops self n y t.
Proof.
  intros Hnil. unfold row_ops, blank_row_ops, applicable_text.
  rewrite displayed_actions_unknown by (by rewrite Hnil). by rewrite Hnil.
Qed.

Lemma unmatched_timing_records g t :
  t ∈ timing_range → (∀ r, r ∈ g → unmatched_timing r) →
  timing_records g t = [].
Proof.
  intros Ht Hg. unfold timing_records.
  destruct (filter _ g) as [|r l] eqn:E; [done|].
  assert (r ∈ filter (fun r => get_timing r = Some t) g) as Hr
    by (rewrite E; left).
  apply list_elem_of_filter in Hr as [Hrt Hr].
  by destruct (proj1 (Forall_forall _ _) (Hg r Hr) t Ht).
Qed.

Lemma rows_ops_blank self n g y :
  (∀ r, r ∈ g → unmatched_timing r) →
  rows_ops self n g y timing_range = blank_block self n y.
Proof.
  intros Hg. unfold timing_range, blank_block. cbn [rows_ops rows_down].
  rewrite !row_ops_blank, app_nil_r;
    try (apply unmatched_timing_records; [|done]; unfold timing_range;
         set_solver).
  done.
Qed.

Lemma key_of_timestamp utcoffset r r' :
  timestamp r = timestamp r' → key_of utcoffset r = key_of utcoffset r'.
Proof. unfold key_of, date_key. by intros ->. Qed.

(** C10: a record whose timing is absent or outside 1 to 5 joins the group
    of its calendar day all the same; the days that are drawn, and so the
    cap of eight, do not depend on timing values; and when its day is drawn
    and no record of that day has a timing from 1 to 5, the block of the
    day is made of five rows with every box unchecked. *)
Theorem unmatched_timing_keeps_session utcoffset self records r y_start c :
  Forall (dated utcoffset) records → r ∈ records → unmatched_timing r →
  let days := session_days utcoffset records in
  let group := day_group utcoffset records in
  r ∈ group (key_of utcoffset r)
  ∧ key_of utcoffset r ∈ distinct_days utcoffset records
  ∧ (∀ f, (∀ r', timestamp (f r') = timestamp r') →
          session_days utcoffset (map f records) = days)
  ∧ _draw_observation_table utcoffset self records y_start c
    = OK (rows_down (1 + 5 * length days) (y_start - 10 * mm)%float,
          c ++ table_head_ops self y_start
            ++ data_rows_ops self group days y_start)
  ∧ (∀ i y, days !! i = Some (key_of utcoffset r) →
            (∀ r', r' ∈ group (key_of utcoffset r) → unmatched_timing r') →
            rows_ops self (i + 1) (group (key_of utcoffset r)) y timing_range
            = blank_block self (i + 1) y).
Proof.
  intros Hdated Hr Hun days group. subst days group.
  split; [by apply list_elem_of_filter|].
  split; [apply elem_of_list_to_set, list_elem_of_fmap; eauto|].
  split.
  { intros f Hf. unfold session_days, distinct_days.
    rewrite <- list_fmap_compose.
    do 4 f_equal. apply list_fmap_ext. intros _ r' _.
    apply key_of_timestamp, Hf. }
  split; [by apply table_writes_indexed|].
  intros i y _ Hgroup. by apply rows_ops_blank.
Qed.

Lemma unmatched_timing_keeps_session_witness :
  let self := ObservationFormPDF_init "form.pdf" in
  timing_nine ∈ day_group jst [timing_nine] (key_of jst timing_nine)
  ∧ session_days jst [timing_nine] = ["2024-01-01"%string]
  ∧ rows_ops self 1 (day_group jst [timing_nine] "2024-01-01") 700 timing_range
    = blank_block self 1 700.
Proof.
  intros self.
  destruct (unmatched_timing_keeps_session jst self [timing_nine] timing_nine
              700 []) as (Hjoin & _ & _ & _ & Hblank).
  { apply Forall_dated. vm_compute. reflexivity. }
  { left. }
  { apply (bool_decide_unpack _). vm_compute. exact I. }
  split; [exact Hjoin|]. split; [by vm_compute|].
  apply (Hblank 0%nat 700%float); [by vm_compute|].
  intros r' [_ Hr']%list_elem_of_filter.
  apply list_elem_of_singleton in Hr' as ->.
  apply (bool_decide_unpack _). vm_compute. exact I.
Defined.

(* ===================================================================== *)
(** ** Records without a timestamp                                       *)
(* ===================================================================== *)



Section MissingTimestamp.
Variable utcoffset : Z → Z.







End MissingTimestamp.




(* ===================================================================== *)
(** ** Document assembly                                                 *)
(* ===================================================================== *)

Lemma bind_ext_at {A B} (m1 m2 : M A) (k1 k2 : A → M B) c :
  m1 c = m2 c → (∀ a c', k1 a c' = k2 a c') →
  bind m1 k1 c = bind m2 k2 c.
Proof.
  intros Hm Hk. unfold bind. rewrite Hm.
  destruct (m2 c) as [[a c']|e]; [apply Hk | done].
Qed.

Lemma for_fold_ext_at {A S} (l : list A) (s : S) (body1 body2 : S → A → M S) c :
  (∀ s' x c', x ∈ l → body1 s' x c' = body2 s' x c') →
  for_fold l s body1 c = for_fold l s body2 c.
Proof.
  revert s c. induction l as [|x l IH]; intros s c Hbody; [done|].
  cbn [for_fold]. apply bind_ext_at.
  - apply Hbody. left.
  - intros s' c'. apply IH. intros s'' y c'' Hy. apply Hbody. by right.
Qed.

(** The table depends on the time zone only through the date keys of the
    records. *)
Lemma table_same_days utcoffset1 utcoffset2 self records y_start c :
  (∀ r, r ∈ records → date_key utcoffset1 r = date_key utcoffset2 r) →
  _draw_observation_table utcoffset1 self records y_start c
  = _draw_observation_table utcoffset2 self records y_start c.
Proof.
  intros Hkeys. unfold _draw_observation_table.
  repeat (apply bind_ext_at; [reflexivity | intros ? ?]).
  apply bind_ext_at; [|done].
  apply for_fold_ext_at. intros m r c0 Hr. unfold group_step.
  by rewrite (Hkeys r Hr).
Qed.

(** Counterexample to C8 as stated: the same facility data, records and
    output path give different documents in two runs whose local time zones
    differ: the two records fall on two calendar days in UTC (two sessions)
    and on one day in UTC+9 (one session). *)
Lemma generate_depends_on_time_zone :
  let self := ObservationFormPDF_init "form.pdf" in
  let run utcoffset :=
    generate utcoffset always_writable self ∅ [evening_utc; night_utc] in
  session_days utc [evening_utc; night_utc]
    = ["2024-01-01"; "2024-01-02"]%string
  ∧ session_days jst [evening_utc; night_utc] = ["2024-01-02"%string]
  ∧ drawn_calls (run utc) = Some 115
  ∧ drawn_calls (run jst) = Some 75
  ∧ run utc ≠ run jst.
Proof.
  intros self run.
  split; [by vm_compute|]. split; [by vm_compute|].
  split; [by vm_compute|]. split; [by vm_compute|].
  intros H. apply (f_equal drawn_calls) in H. vm_compute in H. discriminate.
Qed.

(** C8 (amended): two runs of [generate] with the same facility data, the
    same records and the same output path draw the same sequence of calls
    whenever both runs give every record the same local calendar day, as
    they do under one local time zone. *)
Theorem generate_same_days utcoffset1 utcoffset2 writable self
    facility_info records :
  (∀ r, r ∈ records → date_key utcoffset1 r = date_key utcoffset2 r) →
  generate utcoffset1 writable self facility_info records
  = generate utcoffset2 writable self facility_info records.
Proof.
  intros Hkeys. unfold generate.
  repeat (apply bind_ext_at; [reflexivity | intros ? ?]).
  apply bind_ext_at; [|done].
  by apply table_same_days.
Qed.

Lemma generate_same_days_witness :
  generate jst always_writable (ObservationFormPDF_init "form.pdf") ∅ nine_days
  = generate (fun secs => if (secs <? 0)%Z then 0 else 32400)%Z always_writable
      (ObservationFormPDF_init "form.pdf") ∅ nine_days.
Proof.
  apply generate_same_days. intros r Hr.
  repeat (apply elem_of_cons in Hr as [->|Hr]; [by vm_compute|]).
  by apply elem_of_nil in Hr.
Defined.

(* ===================================================================== *)
(** ** The command line                                                  *)
(* ===================================================================== *)

Lemma bind_OK_inv {A B} (m : M A) (k : A → M B) c b c' :
  bind m k c = OK (b, c') → ∃ a c1, m c = OK (a, c1) ∧ k a c1 = OK (b, c').
Proof.
  unfold bind. destruct (m c) as [[a c1]|e]; [eauto | done].
Qed.

(** [generate] returns the output path of the generator. *)
Lemma generate_returns_path utcoffset writable self facility_info records p doc :
  generate utcoffset writable self facility_info records = OK (p, doc) →
  p = output_path self.
Proof.
  unfold generate. intros H.
  repeat (apply bind_OK_inv in H as (? & ? & _ & H)).
  unfold ret in H. by injection H as <- _.
Qed.

(** The second import statement asks [reportlab.lib.units] for [pt]. *)
Lemma imports_need_pt importable :
  (∀ names, importable "reportlab.lib.units"%string = Some names →
            "pt"%string ∉ names) →
  forallb (import_ok importable) imports = false.
Proof.
  intros Hpt. unfold imports. cbn [forallb].
  destruct (import_ok importable (FromImport "reportlab.lib.pagesizes" ["A4"]));
    [|done].
  cbn [andb].
  assert (import_ok importable (FromImport "reportlab.lib.units" ["mm"; "pt"])
          = false) as ->; [|done].
  unfold import_ok.
  destruct (importable "reportlab.lib.units") as [names|] eqn:E; [|done].
  cbn [forallb]. destruct (existsb (String.eqb "mm") names); [|done].
  cbn [andb]. destruct (existsb (String.eqb "pt") names) eqn:Ept; [|done].
  exfalso. apply (Hpt names eq_refl).
  apply existsb_exists in Ept as (name & Hin & ->%String.eqb_eq).
  by apply list_elem_of_In.
Qed.

(** C7 (defect of the code): the script imports the name [pt] from
    [reportlab.lib.units], which does not define it.  The import raises
    before [main] exists, so whatever the arguments the process writes
    nothing on standard output, neither the success nor the failure
    answer, and ends with status 1. *)
Theorem script_fails_at_import utcoffset writable json_loads importable
    font_error argv :
  (∀ names, importable "reportlab.lib.units"%string = Some names →
            "pt"%string ∉ names) →
  script utcoffset writable json_loads importable font_error argv
  = ([], 1%Z).
Proof. intros Hpt. unfold script. by rewrite imports_need_pt. Qed.

Lemma script_fails_at_import_witness :
  script utc always_writable sample_loads sample_modules no_heisei_font
         ["pdf_generator.py"; "form.pdf"; "{}"]%string
  = ([], 1%Z).
Proof.
  apply script_fails_at_import. intros names Hnames.
  vm_compute in Hnames. injection Hnames as <-.
  apply (bool_decide_unpack _). vm_compute. exact I.
Defined.

(* ===================================================================== *)
(** ** Date keys and local days                                          *)
(* ===================================================================== *)

Section CalendarStrict.
Local Open Scope Z_scope.

Ltac case_ifs :=
  repeat match goal with
         | |- context [if ?c then _ else _] => destruct c eqn:?
         end;
  repeat match goal with
         | H : Z.ltb _ _ = true |- _ => apply Z.ltb_lt in H
         | H : Z.ltb _ _ = false |- _ => apply Z.ltb_ge in H
         | H : Z.leb _ _ = true |- _ => apply Z.leb_le in H
         | H : Z.leb _ _ = false |- _ => apply Z.leb_gt in H
         end.

Lemma year_of_era_next a :
  0 <= a → a + 1 < 146097 →
  year_of_era (a + 1) = year_of_era a
  ∨ (year_of_era (a + 1) = year_of_era a + 1 ∧ day_of_year (a + 1) = 0).
Proof.
  unfold day_of_year, year_of_era. intros. Z.div_mod_to_equations; lia.
Qed.

Lemma era_code_strict yoe doy doy' :
  0 <= doy < doy' → doy' <= 365 → era_code yoe doy < era_code yoe doy'.
Proof.
  unfold era_code. cbv zeta. intros. case_ifs; Z.div_mod_to_equations; lia.
Qed.

(** The next day has a later date. *)
Lemma civil_from_days_next a :
  date_code (civil_from_days a) < date_code (civil_from_days (a + 1)).
Proof.
  rewrite !date_code_civil.
  replace (a + 1 + 719468) with (a + 719468 + 1) by lia.
  set (z := a + 719468).
  pose proof (Z.mod_pos_bound z 146097 ltac:(lia)) as Ha.
  pose proof (Z.mod_pos_bound (z + 1) 146097 ltac:(lia)) as Hb.
  pose proof (Z.div_mod z 146097 ltac:(lia)) as Ea.
  pose proof (Z.div_mod (z + 1) 146097 ltac:(lia)) as Eb.
  pose proof (day_of_year_range _ Ha) as Da.
  pose proof (day_of_year_range _ Hb) as Db.
  pose proof (year_of_era_range _ Ha) as Ya.
  pose proof (year_of_era_range _ Hb) as Yb.
  pose proof (era_code_bounds (year_of_era (z mod 146097)) _ Da) as Ba.
  pose proof (era_code_bounds (year_of_era ((z + 1) mod 146097)) _ Db) as Bb.
  destruct (Z.eq_dec (z / 146097) ((z + 1) / 146097)) as [Eera|Nera].
  - assert ((z + 1) mod 146097 = z mod 146097 + 1) as Hdoe by lia.
    rewrite <- Eera, Hdoe in *.
    destruct (year_of_era_next (z mod 146097)) as [Ey|[Ey Hd]]; [lia..| |].
    + assert (day_of_year (z mod 146097 + 1) = day_of_year (z mod 146097) + 1)
        as Hd by (unfold day_of_year; rewrite Ey; lia).
      rewrite Ey, Hd in *.
      pose proof (era_code_strict (year_of_era (z mod 146097))
                    (day_of_year (z mod 146097))
                    (day_of_year (z mod 146097) + 1)). lia.
    + lia.
  - pose proof (Z.div_le_mono z (z + 1) 146097 ltac:(lia) ltac:(lia)). lia.
Qed.

Lemma civil_from_days_strict a b :
  a < b → date_code (civil_from_days a) < date_code (civil_from_days b).
Proof.
  intros Hab.
  pose proof (civil_from_days_next a).
  pose proof (civil_from_days_mono (a + 1) b). lia.
Qed.
End CalendarStrict.

Lemma string_lt_append a b s t :
  String.length a = String.length b →
  string_lt a b ∨ (a = b ∧ string_lt s t) →
  string_lt (a ++ s) (b ++ t).
Proof.
  intros Hlen H. unfold string_lt, String.ltb in *.
  rewrite (string_compare_append a b s t Hlen).
  destruct H as [H|[-> H]].
  - by destruct (String.compare a b).
  - by rewrite string_compare_refl.
Qed.

(** On valid dates with years of four digits a later date has a later
    key. *)
Lemma strftime_Ymd_strict y1 m1 d1 y2 m2 d2 :
  (1000 ≤ y1 ≤ 9999 → 1000 ≤ y2 ≤ 9999 →
   1 ≤ m1 ≤ 12 → 1 ≤ m2 ≤ 12 → 1 ≤ d1 ≤ 31 → 1 ≤ d2 ≤ 31 →
   date_code (y1, m1, d1) < date_code (y2, m2, d2) →
   string_lt (strftime_Ymd (y1, m1, d1)) (strftime_Ymd (y2, m2, d2)))%Z.
Proof.
  intros Hy1 Hy2 Hm1 Hm2 Hd1 Hd2 Hcode. unfold date_code in Hcode.
  destruct padded_checks as (Hlen4 & Hstep4 & Hlen2 & Hstep2).
  assert (∀ y, (0 ≤ y ≤ 9999)%Z →
               String.length (zero_padded 4 y) = 4%nat) as L4.
  { intros y Hy. apply Nat.eqb_eq.
    apply (all_from_spec _ _ _ y Hlen4). lia. }
  assert (∀ n, (0 ≤ n ≤ 99)%Z →
               String.length (zero_padded 2 n) = 2%nat) as L2.
  { intros n Hn. apply Nat.eqb_eq.
    apply (all_from_spec _ _ _ n Hlen2). lia. }
  unfold strftime_Ymd. rewrite !str_Z_four_digits by done.
  apply string_lt_append; [rewrite !L4; [done|lia..]|].
  destruct (Z.eq_dec y1 y2) as [->|Hy];
    [right; split; [done|]
    |left; apply (zero_padded_lt 4 (Z.to_nat 9999)); [done|lia..]].
  apply (string_lt_append "-" "-"); [done|]. right. split; [done|].
  apply string_lt_append; [rewrite !L2; [done|lia..]|].
  destruct (Z.eq_dec m1 m2) as [->|Hm];
    [right; split; [done|]
    |left; apply (zero_padded_lt 2 (Z.to_nat 99)); [done|lia..]].
  apply (string_lt_append "-" "-"); [done|]. right. split; [done|].
  apply (zero_padded_lt 2 (Z.to_nat 99)); [done|lia..].
Qed.

Lemma key_of_strict utcoffset r r' :
  four_digit_year utcoffset r → four_digit_year utcoffset r' →
  (local_day utcoffset r < local_day utcoffset r')%Z →
  string_lt (key_of utcoffset r) (key_of utcoffset r').
Proof.
  intros Hr Hr' Hlt.
  pose proof (four_digit_year_civil utcoffset r Hr) as Hy.
  pose proof (four_digit_year_civil utcoffset r' Hr') as Hy'.
  apply four_digit_year_dated, dated_key_civil in Hr as [-> _].
  apply four_digit_year_dated, dated_key_civil in Hr' as [-> _].
  apply civil_from_days_strict in Hlt.
  pose proof (civil_from_days_range (local_day utcoffset r)) as Hm.
  pose proof (civil_from_days_range (local_day utcoffset r')) as Hm'.
  destruct (civil_from_days (local_day utcoffset r)) as [[y m] d].
  destruct (civil_from_days (local_day utcoffset r')) as [[y' m'] d'].
  cbn in Hy, Hy'. apply strftime_Ymd_strict; lia.
Qed.

(** X1: for records whose local dates lie in the years 1000 to 9999, which
    [%Y] writes with four digits, the date keys are ordered as the local
    calendar days are, and two records have the same key exactly when they
    fall on the same local day: there, sorting the keys as strings sorts
    the sessions by date, and a session holds the records of one local
    day. *)
Theorem date_keys_follow_local_days utcoffset r r' :
  four_digit_year utcoffset r → four_digit_year utcoffset r' →
  (string_lt (key_of utcoffset r) (key_of utcoffset r')
   ↔ (local_day utcoffset r < local_day utcoffset r')%Z)
  ∧ (key_of utcoffset r = key_of utcoffset r'
     ↔ local_day utcoffset r = local_day utcoffset r').
Proof.
  intros Hr Hr'.
  assert (Hsame : local_day utcoffset r = local_day utcoffset r' →
                  key_of utcoffset r = key_of utcoffset r').
  { intros Heq.
    pose proof (four_digit_year_dated utcoffset r Hr) as Hd.
    pose proof (four_digit_year_dated utcoffset r' Hr') as Hd'.
    apply dated_key_civil in Hd as [-> _].
    apply dated_key_civil in Hd' as [-> _]. by rewrite Heq. }
  split; split.
  - intros Hlt.
    destruct (Z.lt_trichotomy (local_day utcoffset r) (local_day utcoffset r'))
      as [?|[Heq|Hgt]]; [done| |].
    + rewrite (Hsame Heq) in Hlt. by destruct (string_lt_irrefl _ Hlt).
    + apply (key_of_strict utcoffset r' r Hr' Hr) in Hgt.
      destruct (string_lt_irrefl (key_of utcoffset r)).
      by eapply string_lt_trans.
  - by apply key_of_strict.
  - intros Heq.
    destruct (Z.lt_trichotomy (local_day utcoffset r) (local_day utcoffset r'))
      as [Hlt|[?|Hgt]]; [|done|].
    + apply (key_of_strict utcoffset r r' Hr Hr') in Hlt.
      rewrite Heq in Hlt. by destruct (string_lt_irrefl _ Hlt).
    + apply (key_of_strict utcoffset r' r Hr' Hr) in Hgt.
      rewrite Heq in Hgt. by destruct (string_lt_irrefl _ Hgt).
  - exact Hsame.
Qed.

Lemma date_keys_follow_local_days_witness :
  string_lt (key_of jst (record_on_day 0)) (key_of jst (record_on_day 1))
  ↔ (local_day jst (record_on_day 0) < local_day jst (record_on_day 1))%Z.
Proof.
  refine (proj1 (date_keys_follow_local_days jst (record_on_day 0)
                   (record_on_day 1) _ _)).
  - exists 2024%Z, 1%Z, 1%Z. split; [vm_compute; reflexivity | lia].
  - exists 2024%Z, 1%Z, 2%Z. split; [vm_compute; reflexivity | lia].
Defined.

(* ===================================================================== *)
(** ** The table: errors, grouping and input order                       *)
(* ===================================================================== *)

Lemma first_undated utcoffset records :
  Forall (dated utcoffset) records
  ∨ ∃ pre r post e,
      records = pre ++ r :: post ∧ Forall (dated utcoffset) pre
      ∧ date_key utcoffset r = Raise e.
Proof.
  induction records as [|r records IH]; [by left|].
  destruct (date_key utcoffset r) as [k|e] eqn:Hr.
  - destruct IH as [IH|(pre & r' & post & e & -> & Hpre & Hr')].
    + left. constructor; [by exists k | done].
    + right. exists (r :: pre), r', post, e. split; [done|].
      split; [constructor; [by exists k | done] | done].
  - right. exists [], r, records, e. by repeat split.
Qed.

(** X2: the table either draws the header row and the sessions, or raises
    the error of the first record whose timestamp [datetime] cannot
    convert; it raises whenever such a record exists, also when the day of
    that record would not have been drawn. *)
Theorem table_draws_or_raises utcoffset self records y_start c :
  (Forall (dated utcoffset) records
   ∧ _draw_observation_table utcoffset self records y_start c
     = OK (rows_down (1 + 5 * length (session_days utcoffset records))
                     (y_start - 10 * mm)%float,
           c ++ table_head_ops self y_start
             ++ data_rows_ops self (day_group utcoffset records)
                  (session_days utcoffset records) y_start))
  ∨ (∃ pre r post e,
       records = pre ++ r :: post ∧ Forall (dated utcoffset) pre
       ∧ date_key utcoffset r = Raise e
       ∧ _draw_observation_table utcoffset self records y_start c = Raise e).
Proof.
  destruct (first_undated utcoffset records)
    as [Hdated|(pre & r & post & e & -> & Hpre & Hr)].
  - left. split; [done|]. by apply table_writes_indexed.
  - right. exists pre, r, post, e. repeat split; try done.
    by apply table_raises.
Qed.

(** The groups of distinct days, put together, are the records. *)
Lemma concat_groups_Permutation {A} (key : A → string) (ks : list string)
    (l : list A) :
  NoDup ks → (∀ x, x ∈ l → key x ∈ ks) →
  concat (map (fun k => filter (fun x => key x = k) l) ks) ≡ₚ l.
Proof.
  revert l. induction ks as [|k ks IH]; intros l Hnd Hl.
  - destruct l as [|x l]; [done|].
    assert (key x ∈ @nil string) as Hx by (apply Hl; left).
    by apply elem_of_nil in Hx.
  - apply NoDup_cons in Hnd as [Hk Hnd]. cbn [map concat].
    etransitivity; [|apply (filter_app_complement (fun x => key x = k) l)].
    apply Permutation_app; [done|].
    rewrite <- (IH (filter (fun x => ¬ key x = k) l) Hnd).
    + apply Permutation_refl'. f_equal. apply map_ext_in.
      intros k' Hk'%list_elem_of_In. rewrite list_filter_filter.
      apply list_filter_iff. intros x. split; [|by intros [? ?]].
      intros Heq. split; [done|]. intros Hkx. apply Hk.
      by rewrite <- Hkx, Heq.
    + intros x [Hx Hin]%list_elem_of_filter.
      apply Hl in Hin. apply elem_of_cons in Hin as [?|?]; done.
Qed.

(** X3: the grouping loop loses and repeats no record: every entry of the
    dictionary it builds is the non-empty list of the records of one date
    key, in input order, and the entries together are a rearrangement of
    the input. *)
Theorem grouping_partitions_records utcoffset records :
  Forall (dated utcoffset) records →
  ∃ records_by_date : gmap string (list ObservationRecord),
    (∀ c, for_fold records ∅ (group_step utcoffset) c
          = OK (records_by_date, c))
    ∧ (∀ k group, records_by_date !! k = Some group →
                  group ≠ []
                  ∧ group = filter (fun r => key_of utcoffset r = k) records)
    ∧ (∀ r, r ∈ records →
            ∃ group, records_by_date !! key_of utcoffset r = Some group
                     ∧ r ∈ group)
    ∧ concat (map snd (map_to_list records_by_date)) ≡ₚ records.
Proof.
  intros Hdated.
  destruct (group_loop_writes utcoffset records ∅ Hdated) as (m & Hrun & Hm).
  assert (Hlookup : ∀ k, m !! k = extend_group None (day_group utcoffset records k))
    by (intros k; by rewrite Hm, lookup_empty).
  exists m. split; [|split; [|split]].
  - intros c. rewrite (Hrun c). by rewrite app_nil_r.
  - intros k group Hk. rewrite Hlookup in Hk. unfold extend_group in Hk.
    fold (day_group utcoffset records k).
    destruct (day_group utcoffset records k); [done|].
    by injection Hk as <-.
  - intros r Hr. exists (day_group utcoffset records (key_of utcoffset r)).
    assert (r ∈ day_group utcoffset records (key_of utcoffset r)) as Hin
      by (by apply list_elem_of_filter).
    split; [|done]. rewrite Hlookup. unfold extend_group.
    destruct (day_group utcoffset records (key_of utcoffset r));
      [by apply elem_of_nil in Hin | done].
  - assert (map snd (map_to_list m)
            = map (fun k => filter (fun r => key_of utcoffset r = k) records)
                  (map fst (map_to_list m))) as ->.
    { rewrite map_map. apply map_ext_in. intros [k group] Hin.
      apply list_elem_of_In, elem_of_map_to_list in Hin. cbn.
      rewrite Hlookup in Hin. unfold extend_group, day_group in Hin.
      destruct (filter _ records); [done|]. by injection Hin. }
    apply concat_groups_Permutation.
    + apply NoDup_fst_map_to_list.
    + intros r Hr.
      assert (is_Some (m !! key_of utcoffset r)) as [group Hgroup].
      { rewrite Hlookup. unfold extend_group.
        assert (r ∈ day_group utcoffset records (key_of utcoffset r)) as Hin
          by (by apply list_elem_of_filter).
        destruct (day_group utcoffset records (key_of utcoffset r));
          [by apply elem_of_nil in Hin | by eexists]. }
      apply list_elem_of_fmap. exists (key_of utcoffset r, group).
      split; [done|]. by apply elem_of_map_to_list.
Qed.

Lemma grouping_partitions_records_witness :
  ∃ records_by_date : gmap string (list ObservationRecord),
    (∀ c, for_fold nine_days ∅ (group_step jst) c = OK (records_by_date, c))
    ∧ concat (map snd (map_to_list records_by_date)) ≡ₚ nine_days.
Proof.
  destruct (grouping_partitions_records jst nine_days)
    as (m & Hrun & _ & _ & Hperm).
  { apply Forall_dated. vm_compute. reflexivity. }
  by exists m.
Defined.

Lemma elem_of_distinct_days utcoffset records k :
  k ∈ distinct_days utcoffset records ↔ day_group utcoffset records k ≠ [].
Proof.
  unfold distinct_days, day_group.
  rewrite elem_of_list_to_set, list_elem_of_fmap. split.
  - intros (r & -> & Hr) Hnil.
    assert (r ∈ filter (fun r' => key_of utcoffset r' = key_of utcoffset r)
                       records) as Hf
      by (by apply list_elem_of_filter).
    rewrite Hnil in Hf. by apply elem_of_nil in Hf.
  - destruct (filter _ records) as [|r l] eqn:E; [done|]. intros _.
    assert (r ∈ filter (fun r' => key_of utcoffset r' = k) records) as Hf
      by (rewrite E; left).
    apply list_elem_of_filter in Hf as [Hk Hr]. eauto.
Qed.

(** The table is determined by the records of each day, in their order. *)
Lemma table_same_groups utcoffset self records records' y_start c :
  Forall (dated utcoffset) records → Forall (dated utcoffset) records' →
  (∀ k, day_group utcoffset records k = day_group utcoffset records' k) →
  _draw_observation_table utcoffset self records y_start c
  = _draw_observation_table utcoffset self records' y_start c.
Proof.
  intros Hd Hd' Hgroups.
  rewrite (table_writes_indexed utcoffset self records y_start Hd c).
  rewrite (table_writes_indexed utcoffset self records' y_start Hd' c).
  assert (distinct_days utcoffset records = distinct_days utcoffset records')
    as Hdays.
  { apply set_eq. intros k. by rewrite !elem_of_distinct_days, Hgroups. }
  unfold session_days, data_rows_ops. rewrite Hdays.
  do 5 f_equal. apply imap_ext. intros i k _. by rewrite Hgroups.
Qed.

(** X4: the order of the input matters only within a day: exchanging two
    neighbouring records of different days leaves the table unchanged, so
    the sessions and their numbers do not depend on how the records of
    different days are interleaved. *)
Theorem table_ignores_interleaving utcoffset self pre r1 r2 post y_start c :
  Forall (dated utcoffset) (pre ++ r1 :: r2 :: post) →
  key_of utcoffset r1 ≠ key_of utcoffset r2 →
  _draw_observation_table utcoffset self (pre ++ r2 :: r1 :: post) y_start c
  = _draw_observation_table utcoffset self (pre ++ r1 :: r2 :: post) y_start c.
Proof.
  intros Hd Hne. apply table_same_groups; [|done|].
  - apply Forall_app in Hd as [Hpre Hrest].
    apply Forall_cons in Hrest as [H1 Hrest].
    apply Forall_cons in Hrest as [H2 Hpost].
    apply Forall_app. split; [done|]. by repeat constructor.
  - intros k. unfold day_group. rewrite !filter_app, !filter_cons.
    f_equal. repeat case_decide; try done. congruence.
Qed.

Lemma table_ignores_interleaving_witness :
  _draw_observation_table jst (ObservationFormPDF_init "form.pdf")
      ([record_on_day 3] ++ record_on_day 0 :: record_on_day 1 :: []) 700 []
  = _draw_observation_table jst (ObservationFormPDF_init "form.pdf")
      ([record_on_day 3] ++ record_on_day 1 :: record_on_day 0 :: []) 700 [].
Proof.
  apply table_ignores_interleaving.
  - apply Forall_dated. vm_compute. reflexivity.
  - by vm_compute.
Defined.

(* ===================================================================== *)
(** ** Rows: what a record changes                                       *)
(* ===================================================================== *)

(** X5: a record changes only the row of its own timing: in the row of any
    other timing the calls are the same with and without the record. *)
Theorem row_ignores_other_timings self session_num pre r post y t c :
  timing r ≠ Some t →
  draw_timing_row self session_num (pre ++ r :: post) y t c
  = draw_timing_row self session_num (pre ++ post) y t c.
Proof.
  intros Hr.
  rewrite (row_writes self session_num (pre ++ r :: post) y t c).
  rewrite (row_writes self session_num (pre ++ post) y t c).
  assert (timing_records (pre ++ r :: post) t = timing_records (pre ++ post) t)
    as Hrecs.
  { unfold timing_records. rewrite !filter_app, filter_cons.
    by rewrite decide_False. }
  unfold row_ops, applicable_text, displayed_actions. by rewrite Hrecs.
Qed.

Lemma row_ignores_other_timings_witness :
  draw_timing_row (ObservationFormPDF_init "form.pdf") 1
      ([night_utc] ++ evening_utc :: []) 700 2 []
  = draw_timing_row (ObservationFormPDF_init "form.pdf") 1
      ([night_utc] ++ []) 700 2 [].
Proof. apply row_ignores_other_timings. by vm_compute. Defined.

(** X6: the two check columns of a row agree.  The third column shows
    either the two unchecked glyphs or one or two checked glyphs, never a
    mixture and never more than two; and whenever it shows a checked glyph,
    the box of the second column is checked. *)
Theorem row_columns_consistent self session_num session_records y t c :
  ∃ applicable glyphs,
    draw_timing_row self session_num session_records y t c
      = OK ((y - row_height)%float,
            c ++ row_ops self session_num session_records y t)
    ∧ row_ops self session_num session_records y t !! 4%nat
      = Some (DrawString (margin self + col_width self + 2 * mm)
                         (y - row_height + 2 * mm) applicable)%float
    ∧ row_ops self session_num session_records y t !! 5%nat
      = Some (DrawString (margin self + 2 * col_width self + 2 * mm)
                         (y - row_height + 2 * mm) (join_space glyphs))%float
    ∧ (glyphs = ["☐手指消毒"; "☐手洗い"]%string
       ∨ (1 ≤ length glyphs ≤ 2
          ∧ Forall (fun g => g ∈ ["☑手指消毒"; "☑手洗い"; "☑実施なし"]%string)
                   glyphs
          ∧ applicable = "☑"%string)).
Proof.
  exists (applicable_text session_records t),
         (displayed_actions session_records t).
  split; [apply row_writes|]. split; [reflexivity|]. split; [reflexivity|].
  destruct (omap checked_glyph (timing_records session_records t))
    as [|g gs] eqn:E.
  - left. by apply displayed_actions_unknown.
  - right. rewrite displayed_actions_known by (by rewrite E). rewrite E.
    split; [destruct gs; simpl; lia|]. split.
    + apply Forall_forall. intros g' Hg'%subseteq_take. rewrite <- E in Hg'.
      apply list_elem_of_omap in Hg' as (r & _ & Hg').
      unfold checked_glyph in Hg'. destruct (action r); [|done].
      repeat case_decide; try done; injection Hg' as <-; set_solver.
    + unfold applicable_text.
      destruct (timing_records session_records t); [done | done].
Qed.

(* ===================================================================== *)
(** ** The header: what it reads                                         *)
(* ===================================================================== *)

Lemma header_cell_get_str self facility_info y_start label key col row :
  header_cell self facility_info y_start (label, key, col, row)
  = let x := column_x self col in
    let y := (y_start - float_of_nat row * (5 * mm))%float in
    [ DrawString x y label;
      Line (x + 25 * mm) (y - 1 * mm) (x + 60 * mm) (y - 1 * mm) ]%float
    ++ (if truthy (get_str facility_info key)
        then [DrawString (x + 26 * mm) (y - 2 * mm)
                         (get_str facility_info key)]%float
        else []).
Proof.
  unfold header_cell, get_str. cbv zeta. f_equal.
  by destruct (facility_info !! key) as [[|a v]|].
Qed.

(** X7: the header reads the ten known keys only, and a key bound to the
    empty string is drawn like a missing key: two dictionaries that agree on
    the ten keys, up to empty against missing, give the same calls. *)
Theorem header_reads_ten_keys self facility_info facility_info' y_start c :
  Forall (fun key => get_str facility_info key = get_str facility_info' key)
         header_keys →
  _draw_header_info self facility_info y_start c
  = _draw_header_info self facility_info' y_start c.
Proof.
  intros Hkeys.
  rewrite (header_writes self facility_info y_start c).
  rewrite (header_writes self facility_info' y_start c).
  do 3 f_equal. unfold header_grid, header_keys in *.
  repeat (apply Forall_cons in Hkeys as [? Hkeys]).
  cbn [flat_map]. rewrite !header_cell_get_str. cbv zeta.
  repeat match goal with H : get_str _ _ = get_str _ _ |- _ =>
           rewrite H; clear H end.
  done.
Qed.

Lemma header_reads_ten_keys_witness :
  _draw_header_info (ObservationFormPDF_init "form.pdf")
      (<["ward" := ""]> (<["fax" := "072"]> ∅))%string 700 []
  = _draw_header_info (ObservationFormPDF_init "form.pdf") ∅ 700 [].
Proof.
  apply header_reads_ten_keys.
  apply (bool_decide_unpack _). vm_compute. exact I.
Defined.

(* ===================================================================== *)
(** ** The action glyphs and the table of actions                        *)
(* ===================================================================== *)

(** X11: the glyph that the loop appends for a record is the check mark
    followed by the label that [ACTIONS] gives to the action of the record,
    and nothing is appended when the action is absent or is not a key of
    [ACTIONS]: the labels written out in the loop are those of the table,
    which the code never reads. *)
Theorem glyphs_follow_ACTIONS actions r :
  append_action actions r
  = actions ++ match ACTIONS !! default ""%string (action r) with
               | Some label => [("☑" ++ label)%string]
               | None => []
               end.
Proof.
  unfold append_action. cbv zeta.
  destruct (String.eqb_spec (default "" (action r)) "hand_sanitizer")
    as [->|H1]; [done|].
  destruct (String.eqb_spec (default "" (action r)) "hand_wash")
    as [->|H2]; [done|].
  destruct (String.eqb_spec (default "" (action r)) "no_action")
    as [->|H3]; [done|].
  unfold ACTIONS. cbn [list_to_map foldr uncurry].
  rewrite !lookup_insert_ne, lookup_empty by done. by rewrite app_nil_r.
Qed.

(* ===================================================================== *)
(** ** The document                                                      *)
(* ===================================================================== *)

Lemma bind_writes {A B} (m : M A) (k : A → M B) a ops c :
  writes m a ops → bind m k c = k a (c ++ ops).
Proof. intros Hm. unfold bind. by rewrite Hm. Qed.

Lemma generate_dated utcoffset writable self facility_info records :
  Forall (dated utcoffset) records →
  generate utcoffset writable self facility_info records
  = if writable (output_path self)
    then OK (output_path self,
             document_ops utcoffset self facility_info records)
    else Raise (OSError "cannot write the output file").
Proof.
  intros Hdated. unfold generate. cbv zeta.
  do 4 (rewrite (bind_writes _ _ tt [_]) by apply writes_draw;
        rewrite <- ?(assoc_L (++))).
  rewrite (bind_writes _ _ _ _ _ (header_writes self facility_info _)).
  rewrite (bind_writes _ _ _ _ _
             (table_writes_indexed utcoffset self records _ Hdated)).
  do 2 (rewrite (bind_writes _ _ tt [_]) by apply writes_draw).
  unfold bind, save, ret, document_ops, title_ops, footer_ops.
  destruct (writable (output_path self)); [|done].
  do 2 f_equal. cbn [app]. rewrite <- !(assoc_L (++)). done.
Qed.

Lemma generate_undated utcoffset writable self facility_info pre r post e :
  Forall (dated utcoffset) pre → date_key utcoffset r = Raise e →
  generate utcoffset writable self facility_info (pre ++ r :: post) = Raise e.
Proof.
  intros Hpre Hr. unfold generate. cbv zeta.
  do 4 (rewrite (bind_writes _ _ tt [_]) by apply writes_draw).
  rewrite (bind_writes _ _ _ _ _ (header_writes self facility_info _)).
  unfold bind at 1.
  by rewrite (table_raises utcoffset self pre r post _ e Hpre Hr).
Qed.

(** X8: [generate] draws the title, the header, the table and the footer
    in this order, the table starting at the cursor that the header returns,
    and saves last.  It returns the output path with this document when
    every record has a date and the path can be written; a record without a
    date makes it raise before anything is saved, whatever the path; a path
    that cannot be written makes it raise after all the drawing. *)
Theorem generate_document utcoffset writable self facility_info records :
  (Forall (dated utcoffset) records
   ∧ writable (output_path self) = true
   ∧ generate utcoffset writable self facility_info records
     = OK (output_path self,
           document_ops utcoffset self facility_info records))
  ∨ (Forall (dated utcoffset) records
     ∧ writable (output_path self) = false
     ∧ generate utcoffset writable self facility_info records
       = Raise (OSError "cannot write the output file"))
  ∨ (∃ pre r post e,
       records = pre ++ r :: post ∧ Forall (dated utcoffset) pre
       ∧ date_key utcoffset r = Raise e
       ∧ generate utcoffset writable self facility_info records = Raise e).
Proof.
  destruct (first_undated utcoffset records)
    as [Hdated|(pre & r & post & e & -> & Hpre & Hr)].
  - rewrite (generate_dated utcoffset writable self facility_info records Hdated).
    destruct (writable (output_path self)); [left | right; left]; done.
  - right. right. exists pre, r, post, e. repeat split; try done.
    by apply generate_undated.
Qed.

(* ===================================================================== *)
(** ** Where the rectangles are drawn                                    *)
(* ===================================================================== *)

Lemma rect_bottoms_app ops1 ops2 :
  rect_bottoms (ops1 ++ ops2) = rect_bottoms ops1 ++ rect_bottoms ops2.
Proof.
  induction ops1 as [|op ops1 IH]; [done|].
  destruct op; cbn [app rect_bottoms]; by rewrite IH.
Qed.

Lemma row_bottoms_app n m y :
  row_bottoms (n + m) y = row_bottoms n y ++ row_bottoms m (rows_down n y).
Proof.
  revert y. induction n as [|n IH]; intros y; [done|].
  cbn [Nat.add row_bottoms rows_down app]. by rewrite IH.
Qed.

Lemma rect_bottoms_rows self n g y ts :
  rect_bottoms (rows_ops self n g y ts) = row_bottoms (length ts) y.
Proof.
  revert y. induction ts as [|t ts IH]; intros y; [done|].
  cbn [rows_ops length row_bottoms]. rewrite rect_bottoms_app, IH. done.
Qed.

Lemma rect_bottoms_sessions self n groups y :
  rect_bottoms (sessions_ops self n groups y)
  = row_bottoms (5 * length groups) y.
Proof.
  revert n y. induction groups as [|g groups IH]; intros n y; [done|].
  cbn [sessions_ops length].
  replace (5 * S (length groups)) with (5 + 5 * length groups) by lia.
  by rewrite rect_bottoms_app, rect_bottoms_rows, IH, row_bottoms_app.
Qed.

Lemma rect_bottoms_header self facility_info y_start cells :
  rect_bottoms (flat_map (header_cell self facility_info y_start) cells) = [].
Proof.
  induction cells as [|[[[label key] col] row] cells IH]; [done|].
  cbn [flat_map]. rewrite rect_bottoms_app, IH, header_cell_get_str.
  cbv zeta. by destruct (truthy _).
Qed.

(** The rectangles of a document: the header row of the table and the
    data rows, five per session. *)
Lemma rect_bottoms_document utcoffset self facility_info records :
  rect_bottoms (document_ops utcoffset self facility_info records)
  = (table_start self - 10 * mm - row_height)%float
      :: row_bottoms (5 * length (session_days utcoffset records))
                     (table_start self - 10 * mm - row_height)%float.
Proof.
  unfold document_ops, data_rows_ops.
  rewrite <- (sessions_ops_indexed self 0).
  rewrite !rect_bottoms_app. cbn [rect_bottoms title_ops footer_ops].
  rewrite rect_bottoms_header, rect_bottoms_sessions, length_map.
  unfold table_head_ops. cbv zeta. cbn [rect_bottoms app].
  by rewrite app_nil_r.
Qed.

Lemma forallb_Forall {A} (f : A → bool) l :
  forallb f l = true → Forall (fun x => f x = true) l.
Proof.
  induction l as [|x l IH]; cbn [forallb]; [by constructor|].
  intros [Hx Hl]%andb_prop. constructor; auto.
Qed.

Lemma existsb_Exists {A} (f : A → bool) l :
  existsb f l = true → Exists (fun x => f x = true) l.
Proof.
  induction l as [|x l IH]; cbn [existsb]; [done|].
  intros [Hx|Hl]%orb_prop; [by left | right; auto].
Qed.

(* ===================================================================== *)
(** ** The table and the page                                            *)
(* ===================================================================== *)

(** X9: there is no page break.  On the A4 form the table of up to five
    session days stays above the footer line, 10 mm above the lower edge of
    the page; from six session days on, rows are drawn below the lower edge
    of the page (at negative heights). *)
Theorem six_days_leave_the_page utcoffset writable path facility_info records :
  Forall (dated utcoffset) records → writable path = true →
  ∃ doc,
    generate utcoffset writable (ObservationFormPDF_init path)
             facility_info records = OK (path, doc)
    ∧ (size (distinct_days utcoffset records) ≤ 5 →
       Forall (fun y => (10 * mm <? y)%float = true) (rect_bottoms doc))
    ∧ (6 ≤ size (distinct_days utcoffset records) →
       Exists (fun y => (y <? 0)%float = true) (rect_bottoms doc)).
Proof.
  intros Hdated Hpath.
  exists (document_ops utcoffset (ObservationFormPDF_init path)
            facility_info records).
  split.
  { rewrite (generate_dated utcoffset writable _ facility_info records Hdated).
    cbn [output_path ObservationFormPDF_init]. rewrite Hpath. reflexivity. }
  rewrite rect_bottoms_document.
  pose proof (session_days_length utcoffset records) as Hlen.
  destruct (length (session_days utcoffset records))
    as [|[|[|[|[|[|[|[|[|n]]]]]]]]].
  all: split; intros Hdays.
  all: try (exfalso; clear -Hlen Hdays; lia).
  all: first [apply forallb_Forall | apply existsb_Exists].
  all: vm_compute; reflexivity.
Qed.

Lemma six_days_leave_the_page_witness :
  ∃ doc,
    generate jst always_writable (ObservationFormPDF_init "form.pdf") ∅
             nine_days = OK ("form.pdf"%string, doc)
    ∧ Exists (fun y => (y <? 0)%float = true) (rect_bottoms doc).
Proof.
  destruct (six_days_leave_the_page jst always_writable "form.pdf" ∅ nine_days)
    as (doc & Hrun & _ & Hout).
  { apply Forall_dated. vm_compute. reflexivity. }
  { reflexivity. }
  exists doc. split; [exact Hrun|]. apply Hout. vm_compute. lia.
Defined.

(* ===================================================================== *)
(** ** The fill colour at which strings are drawn                        *)
(* ===================================================================== *)

Lemma fill_after_app f a b :
  fill_after f (a ++ b) = fill_after (fill_after f a) b.
Proof.
  revert f. induction a as [|op a IH]; intros f; [done|].
  destruct op; cbn [app fill_after]; by rewrite IH.
Qed.

Lemma texts_app a b : texts (a ++ b) = texts a ++ texts b.
Proof.
  induction a as [|op a IH]; [done|].
  destruct op; cbn [app texts]; by rewrite IH.
Qed.

Lemma string_fills_app f a b :
  string_fills f (a ++ b)
  = string_fills f a ++ string_fills (fill_after f a) b.
Proof.
  revert f. induction a as [|op a IH]; intros f; [done|].
  destruct op; cbn [app string_fills fill_after]; by rewrite IH.
Qed.

Lemma band_fills_app f a b :
  band_fills f (a ++ b) = band_fills f a ++ band_fills (fill_after f a) b.
Proof.
  revert f. induction a as [|op a IH]; intros f; [done|].
  destruct op as [| | | | | | |? ? ? ? []];
    cbn [app band_fills fill_after]; by rewrite IH.
Qed.

Lemma drawn_at_app f a b : drawn_at f (a ++ b) = drawn_at f a ++ drawn_at f b.
Proof. apply map_app. Qed.

(** The header sets no fill colour and fills no rectangle. *)
Lemma header_fills self facility_info y_start cells f :
  fill_after f (flat_map (header_cell self facility_info y_start) cells) = f
  ∧ string_fills f (flat_map (header_cell self facility_info y_start) cells)
    = drawn_at f (texts (flat_map (header_cell self facility_info y_start)
                                  cells))
  ∧ band_fills f (flat_map (header_cell self facility_info y_start) cells)
    = [].
Proof.
  induction cells as [|[[[label key] col] row] cells (IH1 & IH2 & IH3)];
    [done|].
  cbn [flat_map].
  rewrite fill_after_app, string_fills_app, band_fills_app, texts_app,
    drawn_at_app, header_cell_get_str.
  cbv zeta. by destruct (truthy _); cbn [app fill_after]; rewrite IH1, IH2, IH3.
Qed.

(** A data row sets the fill colour to the tint of its band. *)
Lemma rows_fills self n g ts y f :
  fill_after f (rows_ops self n g y ts)
  = match ts with [] => f | _ :: _ => Some row_tint end
  ∧ string_fills f (rows_ops self n g y ts)
    = drawn_at (Some row_tint) (texts (rows_ops self n g y ts))
  ∧ band_fills f (rows_ops self n g y ts)
    = replicate (length ts) (Some row_tint).
Proof.
  revert y f. induction ts as [|t ts IH]; intros y f; [done|].
  cbn [rows_ops length replicate].
  rewrite fill_after_app, string_fills_app, band_fills_app, texts_app,
    drawn_at_app.
  change (fill_after f (row_ops self n g y t)) with (Some row_tint).
  destruct (IH (y - row_height)%float (Some row_tint)) as (-> & -> & ->).
  split; [by destruct ts|]. split; reflexivity.
Qed.

Lemma sessions_fills self n groups y f :
  fill_after f (sessions_ops self n groups y)
  = match groups with [] => f | _ :: _ => Some row_tint end
  ∧ string_fills f (sessions_ops self n groups y)
    = drawn_at (Some row_tint) (texts (sessions_ops self n groups y))
  ∧ band_fills f (sessions_ops self n groups y)
    = replicate (5 * length groups) (Some row_tint).
Proof.
  revert n y f. induction groups as [|g groups IH]; intros n y f; [done|].
  cbn [sessions_ops length].
  replace (5 * S (length groups)) with (5 + 5 * length groups) by lia.
  rewrite fill_after_app, string_fills_app, band_fills_app, texts_app,
    drawn_at_app, replicate_add.
  destruct (rows_fills self (n + 1) g timing_range y f) as (Hf & -> & ->).
  change (fill_after f (rows_ops self (n + 1) g y timing_range)
          = Some row_tint) in Hf. rewrite Hf.
  destruct (IH (n + 1) (rows_down 5 y) (Some row_tint)) as (-> & -> & ->).
  split; [by destruct groups|]. split; reflexivity.
Qed.

Lemma document_fills utcoffset self facility_info records :
  let days := session_days utcoffset records in
  let doc := document_ops utcoffset self facility_info records in
  string_fills None doc
  = drawn_at None
      (texts (title_ops self)
         ++ texts (flat_map (header_cell self facility_info
                               (page_height self - 35 * mm)%float)
                            header_grid))
    ++ drawn_at (Some header_tint) table_headers
    ++ drawn_at (Some row_tint)
         (texts (data_rows_ops self (day_group utcoffset records) days
                               (table_start self)))
    ++ [("WHO観察フォーム一部変換"%string,
         Some match days with [] => header_tint | _ :: _ => row_tint end)]
  ∧ band_fills None doc
    = Some header_tint :: replicate (5 * length days) (Some row_tint).
Proof.
  cbv zeta. unfold document_ops, data_rows_ops.
  rewrite <- (sessions_ops_indexed self 0).
  change (SetFont "HeiseiKakuGo-W5" 9 :: ?l)
    with ([SetFont "HeiseiKakuGo-W5" 9] ++ l).
  rewrite !string_fills_app, !band_fills_app, !fill_after_app, drawn_at_app.
  destruct (header_fills self facility_info (page_height self - 35 * mm)%float
              header_grid None) as (Hf & Hs & Hb).
  change (fill_after None (title_ops self)) with (@None colour).
  change (fill_after None [SetFont "HeiseiKakuGo-W5" 9]) with (@None colour).
  rewrite Hf, Hs, Hb.
  change (fill_after None (table_head_ops self (table_start self)))
    with (Some header_tint).
  destruct (sessions_fills self 0
              (map (day_group utcoffset records)
                   (session_days utcoffset records))
              (table_start self - 10 * mm - row_height)%float
              (Some header_tint)) as (-> & -> & ->).
  rewrite length_map.
  assert (match map (day_group utcoffset records)
                    (session_days utcoffset records) with
          | [] => Some header_tint
          | _ :: _ => Some row_tint
          end
          = Some match session_days utcoffset records with
                 | [] => header_tint
                 | _ :: _ => row_tint
                 end) as ->
    by (by destruct (session_days utcoffset records)).
  split;
    [|change (band_fills ?f (footer_ops self)) with (@nil (option colour));
      by rewrite !app_nil_r].
  change (string_fills None (title_ops self))
    with (drawn_at None (texts (title_ops self))).
  change (string_fills None [SetFont "HeiseiKakuGo-W5" 9])
    with (@nil (string * option colour)).
  change (string_fills None (table_head_ops self (table_start self)))
    with (drawn_at (Some header_tint) table_headers).
  cbn [app]. by rewrite <- !(assoc_L (++)).
Qed.

(** X12: the fill colour is set only for the bands of the table and is never
    set back.  Title and header are drawn at the initial fill colour of the
    canvas; the four column titles are drawn while the fill colour is the
    tint of the header band, every string of a data row while it is the tint
    of the band of the row, and the footer at the tint of the last band
    drawn.  (The canvas paints strings with the fill colour.) *)
Theorem table_text_has_band_colour utcoffset writable self facility_info
    records p doc :
  generate utcoffset writable self facility_info records = OK (p, doc) →
  let days := session_days utcoffset records in
  string_fills None doc
  = drawn_at None
      (texts (title_ops self)
         ++ texts (flat_map (header_cell self facility_info
                               (page_height self - 35 * mm)%float)
                            header_grid))
    ++ drawn_at (Some header_tint) table_headers
    ++ drawn_at (Some row_tint)
         (texts (data_rows_ops self (day_group utcoffset records) days
                               (table_start self)))
    ++ [("WHO観察フォーム一部変換"%string,
         Some match days with [] => header_tint | _ :: _ => row_tint end)]
  ∧ band_fills None doc
    = Some header_tint :: replicate (5 * length days) (Some row_tint).
Proof.
  intros Hrun.
  destruct (first_undated utcoffset records)
    as [Hdated|(pre & r & post & e & -> & Hpre & Hr)].
  - rewrite (generate_dated utcoffset writable self facility_info records
               Hdated) in Hrun.
    destruct (writable (output_path self)); [|done].
    injection Hrun as _ <-. apply document_fills.
  - by rewrite (generate_undated utcoffset writable self facility_info
                  pre r post e Hpre Hr) in Hrun.
Qed.

Lemma table_text_has_band_colour_witness :
  band_fills None
    (document_ops jst (ObservationFormPDF_init "form.pdf") ∅ [evening_utc])
  = Some header_tint :: replicate 5 (Some row_tint).
Proof.
  refine (proj2 (table_text_has_band_colour jst always_writable
                   (ObservationFormPDF_init "form.pdf") ∅ [evening_utc]
                   "form.pdf" _ _)).
  vm_compute. reflexivity.
Defined.

(* ===================================================================== *)
(** ** The command line: the font                                      *)
(* ===================================================================== *)

(** X10: the module registers no font.  In a process where the drawing
    library cannot find the font that every [setFont] names, no run of
    [main] succeeds: it prints one line, which is never the success
    answer, and ends with status 1; when the text decodes to a document,
    the line is the failure answer with the text of the font error,
    whatever the records and the output path. *)
Theorem main_fails_without_font utcoffset writable json_loads font_error e
    argv :
  font_error "HeiseiKakuGo-W5"%string = Some e →
  ∃ line,
    main utcoffset writable json_loads font_error argv = ([line], 1%Z)
    ∧ (∀ path, line ≠ json_success path)
    ∧ (∀ data input,
         argv !! 2%nat = Some data → json_loads data = OK (Document input) →
         line = json_failure (str_exn e)).
Proof.
  intros Hfont. unfold main. destruct (length argv <? 3) eqn:Hlen.
  - apply Nat.ltb_lt in Hlen. eexists. split; [reflexivity|].
    split; [done|]. intros data input Hdata%lookup_lt_Some. lia.
  - assert (∃ e', generate_from_json utcoffset writable json_loads font_error
                    (ObservationFormPDF_init (default ""%string (argv !! 1%nat)))
                    (default ""%string (argv !! 2%nat)) = Raise e'
                  ∧ ∀ input, json_loads (default ""%string (argv !! 2%nat))
                             = OK (Document input) → e' = e)
      as (e' & -> & He').
    { unfold generate_from_json, generate_call. rewrite Hfont.
      destruct (json_loads _) as [[input|type_name]|e0]; cbn [rbind].
      - exists e. split; [done|]. done.
      - eexists. split; [done|]. done.
      - exists e0. split; [done|]. done. }
    eexists. split; [reflexivity|]. split; [done|].
    intros data input Hdata Hload. rewrite Hdata in He'.
    cbn [default from_option id] in He'. by rewrite (He' input Hload).
Qed.

Lemma main_fails_without_font_witness :
  main utc always_writable sample_loads no_heisei_font
       ["pdf_generator.py"; "form.pdf"; "{}"]%string
  = ([json_failure "'HeiseiKakuGo-W5'"], 1%Z).
Proof.
  destruct (main_fails_without_font utc always_writable sample_loads
              no_heisei_font (KeyError "HeiseiKakuGo-W5")
              ["pdf_generator.py"; "form.pdf"; "{}"]%string)
    as (line & Hmain & _ & Hline); [reflexivity|].
  rewrite Hmain. f_equal. f_equal.
  apply (Hline "{}"%string {| facilityInfo := None; records := None |});
    reflexivity.
Defined.
